(** * DuckDB Snowflake Explorer: connection, secret and query-dispatch helpers

    A shallow embedding of the helper functions and handlers of
    [streamlit_app/app.py]:

    - the statement builders inside [_create_secret] and [_snowflake_query],
    - the extension loader [_ensure_extension],
    - the dispatcher [_run_query_duckdb] and the list helper [_sf_fetch_list],
    - the connect and disconnect handlers,
    - the two query tabs: the query-history insertion of both, and the
      statement loop of the local tab with the drawing of each result,
      whose export buttons can end the run.

    Python strings are modelled as [string] (a sequence of 8-bit characters;
    a non-ASCII code point is its UTF-8 bytes, which none of the functions
    below inspects apart from [strip], which knows the encodings of the
    whitespace code points, and the slice [stmt[:20]], which counts code
    points).  [str.lower()] follows the Unicode tables of the interpreter:
    it is an interface ([Lowering]), fixed on ASCII text only.
    The embedded engine is an interface ([Engine]): a call [conn.execute(sql)]
    either returns a cursor or raises, and every exception is represented by
    its [str(exc)] text, the only thing the code ever reads from it.  The
    page with its keyed widgets ([Widgets]) and the serialisers of a frame
    ([Export]) are interfaces too: each call returns or raises. *)

From Stdlib Require Import String Ascii List ZArith Lia Bool Arith.
Import ListNotations.
Open Scope list_scope.
Open Scope string_scope.

Set Implicit Arguments.

(** ** Python values *)

(** Outcome of a call that may raise: the value returned, or the text
    [str(exc)] of the exception raised ([except Exception as exc]). *)
Inductive PyResult (A : Type) : Type :=
| Returns (a : A)
| Raises (msg : string).

Arguments Returns {A} a.
Arguments Raises {A} msg.

(** Truthiness of a [str]: [if s:] holds exactly for the non-empty string. *)
Definition truthy (s : string) : bool :=
  match s with
  | EmptyString => false
  | String _ _ => true
  end.

(** [s.replace(old, new)] for a one-character [old]: every occurrence of the
    character is replaced, left to right. *)
Fixpoint replace_char (old : ascii) (new : string) (s : string) : string :=
  match s with
  | EmptyString => EmptyString
  | String c rest =>
      if Ascii.eqb c old then new ++ replace_char old new rest
      else String c (replace_char old new rest)
  end.

Definition quote : ascii := "'"%char.

(** Lower-casing of ASCII text: the letters A-Z become a-z, every other
    character stays. *)
Definition lower_ascii (c : ascii) : ascii :=
  let n := nat_of_ascii c in
  if (65 <=? n)%nat && (n <=? 90)%nat then ascii_of_nat (n + 32) else c.

Fixpoint ascii_lower (s : string) : string :=
  match s with
  | EmptyString => EmptyString
  | String c rest => String (lower_ascii c) (ascii_lower rest)
  end.

(** [s.isascii()]: every code point is below 128, so every byte is. *)
Fixpoint is_ascii (s : string) : bool :=
  match s with
  | EmptyString => true
  | String c rest => (nat_of_ascii c <? 128)%nat && is_ascii rest
  end.

(** [s.lower()].  Python lowers a [str] by the Unicode case tables of the
    interpreter (['\u00c9'.lower()] is ['\u00e9']), which are not
    reproduced here: [lower] is any function that does on ASCII text what
    those tables do there. *)
Class Lowering : Type := {
  lower : string -> string;
  lower_ascii_text : forall s, is_ascii s = true -> lower s = ascii_lower s
}.

(** The lowering that folds the ASCII letters and nothing else: what
    [str.lower()] does on the labels and names of the examples below. *)
Definition ascii_lowering : Lowering :=
  {| lower := ascii_lower;
     lower_ascii_text := fun _ _ => eq_refl |}.

(** [needle in s] for strings. *)
Fixpoint contains (needle s : string) : bool :=
  String.prefix needle s
  || match s with
     | EmptyString => false
     | String _ rest => contains needle rest
     end.

(** Number of occurrences of a character. *)
Fixpoint count_char (c : ascii) (s : string) : nat :=
  match s with
  | EmptyString => 0
  | String d rest => (if Ascii.eqb d c then 1 else 0) + count_char c rest
  end.

(** [s[:n]]: the first [n] code points.  In UTF-8 a byte from 128 to 191
    continues the code point begun before it, so it is kept with it and
    not counted. *)
Definition is_continuation (c : ascii) : bool :=
  let b := nat_of_ascii c in (128 <=? b)%nat && (b <=? 191)%nat.

Fixpoint take_code_points (n : nat) (s : string) : string :=
  match s with
  | EmptyString => EmptyString
  | String c rest =>
      if is_continuation c then String c (take_code_points n rest)
      else
        match n with
        | O => EmptyString
        | S n' => String c (take_code_points n' rest)
        end
  end.

(** ** Tabular results (pandas) *)

(** A cell of a result column: the two null values pandas knows ([None] in
    an object column, [NaN] in a numeric one) or a value, kept as the text
    [astype(str)] gives for it. *)
Inductive Cell : Type :=
| NoneCell
| NaNCell
| ValueCell (text : string).

Definition isna (c : Cell) : bool :=
  match c with
  | NoneCell | NaNCell => true
  | ValueCell _ => false
  end.

(** [astype(str)] on one cell: nulls are converted like any other value. *)
Definition astype_str (c : Cell) : string :=
  match c with
  | NoneCell => "None"
  | NaNCell => "nan"
  | ValueCell t => t
  end.

Definition Series : Type := list Cell.

(** [s.dropna()] *)
Definition dropna (s : Series) : Series := filter (fun c => negb (isna c)) s.

(** [s.astype(str).tolist()] *)
Definition astype_str_tolist (s : Series) : list string := map astype_str s.

(** A data frame: its columns in order, labels possibly repeated, and the
    length of its row index. *)
Record DataFrame : Type := mkDataFrame {
  df_columns : list (string * Series);
  df_index_len : nat
}.

(** [df.columns] *)
Definition columns (df : DataFrame) : list string := map fst (df_columns df).

(** [len(df)] *)
Definition df_len (df : DataFrame) : nat := df_index_len df.

(** [df.empty]: true when either axis has length 0. *)
Definition df_empty (df : DataFrame) : bool :=
  (length (df_columns df) =? 0)%nat || (df_index_len df =? 0)%nat.

(** [df[c].dropna().astype(str).tolist()] for a label [c].  With a label
    that occurs once [df[c]] is that column; with a repeated label it is a
    frame, which has no [tolist]; with an unknown label it is a [KeyError]. *)
Definition getitem_dropna_tolist (df : DataFrame) (c : string)
  : PyResult (list string) :=
  match filter (fun p => String.eqb (fst p) c) (df_columns df) with
  | [] => Raises "KeyError"
  | [(_, s)] => Returns (astype_str_tolist (dropna s))
  | _ :: _ :: _ => Raises "'DataFrame' object has no attribute 'tolist'"
  end.

(** [df.iloc[:, i].astype(str).tolist()] for an integer [i]: positions
    count from the end when negative, and out-of-range ones raise. *)
Definition iloc_col_tolist (df : DataFrame) (i : Z) : PyResult (list string) :=
  let n := Z.of_nat (length (df_columns df)) in
  let pos := if (i <? 0)%Z then (n + i)%Z else i in
  if ((0 <=? pos)%Z && (pos <? n)%Z)%bool then
    match nth_error (df_columns df) (Z.to_nat pos) with
    | Some (_, s) => Returns (astype_str_tolist s)
    | None => Raises "IndexError: single positional indexer is out-of-bounds"
    end
  else Raises "IndexError: single positional indexer is out-of-bounds".

(** ** The embedded engine *)

(** What [conn.execute(sql)] returns: [fetchdf()] and [fetchone()] either
    give the materialised result or raise. *)
Record Cursor : Type := mkCursor {
  fetchdf : PyResult DataFrame;
  fetchone : PyResult (option (list string))
}.

(** The engine behind a connection: executing a statement changes the
    engine's state and returns a cursor or raises. *)
Class Engine (E : Type) : Type := {
  engine_execute : E -> string -> E * PyResult Cursor
}.

(** A connection handle: the engine's state together with the statements
    issued on the handle so far (a ghost trace, oldest first). *)
Record Conn (E : Type) : Type := mkConn {
  engine : E;
  issued : list string
}.

(** The clock: [time.perf_counter()] readings, their difference, the
    literal [0.0], the rendering [f"{elapsed:.2f}s"] and
    [time.strftime("%H:%M:%S")]. *)
Class Clock (K T : Type) : Type := {
  perf_counter : K -> K * T;
  time_sub : T -> T -> T;
  time_zero : T;
  format_2f_s : T -> string;
  strftime_hms : K -> string
}.

(** ** Exports and keyed widgets *)

(** The serialisers behind the download buttons: [df.to_csv(index=False)],
    [df.to_json(orient="records", indent=2)] and
    [df.to_parquet(buf, index=False)] followed by [buf.getvalue()].  Each
    returns the text or the bytes, or raises. *)
Class Export : Type := {
  to_csv : DataFrame -> PyResult string;
  to_json : DataFrame -> PyResult string;
  to_parquet : DataFrame -> PyResult string
}.

(** The page drawn by the current run of the script.  The calls that take
    a frame or a [key] change the page and either return or raise (a key
    used twice in one run is refused); the label, the file name and the
    MIME type of a button are literals and left out.  The calls that only
    show a text ([st.caption], [st.success], [st.error], [st.spinner]) and
    the layout [st.columns] return and leave no trace. *)
Class Widgets (W : Type) : Type := {
  st_dataframe : W -> DataFrame -> W * PyResult unit;
  (* st.download_button(label, data, file_name, mime, key=key) *)
  st_download_button : W -> string -> string -> W * PyResult unit;
  (* st.button(label, disabled=True, key=key) *)
  st_button : W -> string -> W * PyResult unit
}.

(** ** Session state *)

Record HistoryEntry : Type := mkEntry {
  h_sql : string;
  h_mode : string;
  h_rows : nat;
  h_time : string;
  h_ts : string
}.

(** [st.session_state], with the keys of [_DEFAULTS]. *)
Record Session (E T : Type) : Type := mkSession {
  connected : bool;
  secret_name : string;
  attach_alias : string;
  conn_string_preview : string;
  query_history : list HistoryEntry;
  current_db : option string;
  current_schema : option string;
  current_table : option string;
  last_result : option DataFrame;
  last_query : string;
  last_elapsed : T;
  last_row_count : nat;
  duckdb_conn : option (Conn E);
  extension_loaded : bool
}.

(** How a run of the local tab's loop ends: the session, the clock, the
    handle and the page it leaves, and the text of the exception that ended
    it, if one did. *)
Record LocalRun (E K T W : Type) : Type := mkLocalRun {
  run_session : Session E T;
  run_clock : K;
  run_conn : Conn E;
  run_page : W;
  run_raised : option string
}.

Section App.

Context {E : Type} `{Eng : Engine E}.
Context {K T : Type} `{Clk : Clock K T}.
Context {Low : Lowering}.
Context {W : Type} `{Wid : Widgets W}.
Context {Exp : Export}.

(** [_DEFAULTS] *)
Definition _DEFAULTS : Session E T := {|
  connected := false;
  secret_name := "";
  attach_alias := "";
  conn_string_preview := "";
  query_history := [];
  current_db := None;
  current_schema := None;
  current_table := None;
  last_result := None;
  last_query := "";
  last_elapsed := time_zero;
  last_row_count := 0;
  duckdb_conn := None;
  extension_loaded := false
|}.

(** [conn.execute(sql)]: the statement is recorded in the trace, whether it
    succeeds or raises. *)
Definition execute (conn : Conn E) (sql : string) : Conn E * PyResult Cursor :=
  let (e', r) := engine_execute (engine conn) sql in
  ({| engine := e'; issued := (issued conn ++ [sql])%list |}, r).

(** ** [_create_secret] *)

(** [parts.append(p)] *)
Definition append (parts : list string) (p : string) : list string :=
  (parts ++ [p])%list.

(** The list [parts] as [_create_secret] builds it, append by append. *)
Definition secret_parts
    (account user auth_method password warehouse database role
     oauth_token private_key_pem private_key_passphrase : string)
  : list string :=
  let parts := [ "TYPE snowflake";
                 "ACCOUNT '" ++ account ++ "'";
                 "USER '" ++ user ++ "'" ] in
  let parts :=
    if String.eqb auth_method "Password" then
      append parts ("PASSWORD '" ++ password ++ "'")
    else if String.eqb auth_method "Key Pair" then
      let parts := append parts ("AUTH_TYPE 'key_pair'") in
      let parts := append parts ("PRIVATE_KEY '" ++ private_key_pem ++ "'") in
      if truthy private_key_passphrase then
        append parts ("PRIVATE_KEY_PASSPHRASE '" ++ private_key_passphrase ++ "'")
      else parts
    else if String.eqb auth_method "OAuth Token" then
      let parts := append parts ("AUTH_TYPE 'oauth'") in
      append parts ("TOKEN '" ++ oauth_token ++ "'")
    else parts in
  let parts :=
    if truthy database then append parts ("DATABASE '" ++ database ++ "'")
    else parts in
  let parts :=
    if truthy warehouse then append parts ("WAREHOUSE '" ++ warehouse ++ "'")
    else parts in
  let parts :=
    if truthy role then append parts ("ROLE '" ++ role ++ "'")
    else parts in
  parts.

(** The text of the CREATE statement. *)
Definition create_secret_sql (secret_name : string) (parts : list string)
  : string :=
  "CREATE SECRET " ++ secret_name ++ " (" ++ String.concat ", " parts ++ ");".

Definition drop_secret_sql (secret_name : string) : string :=
  "DROP SECRET IF EXISTS " ++ secret_name ++ ";".

Definition _create_secret (conn : Conn E)
    (secret_name account user auth_method password warehouse database role
     oauth_token private_key_pem private_key_passphrase : string)
  : Conn E * (bool * string) :=
  (* try: conn.execute(DROP ...) except Exception: pass *)
  let (conn, _) := execute conn (drop_secret_sql secret_name) in
  let parts := secret_parts account user auth_method password warehouse
                 database role oauth_token private_key_pem
                 private_key_passphrase in
  let sql := create_secret_sql secret_name parts in
  match execute conn sql with
  | (conn, Returns _) => (conn, (true, "Secret created"))
  | (conn, Raises msg) => (conn, (false, msg))
  end.

(** ** [_ensure_extension] *)

Definition set_extension_loaded (st : Session E T) (b : bool) : Session E T :=
  {| connected := connected st;
     secret_name := secret_name st;
     attach_alias := attach_alias st;
     conn_string_preview := conn_string_preview st;
     query_history := query_history st;
     current_db := current_db st;
     current_schema := current_schema st;
     current_table := current_table st;
     last_result := last_result st;
     last_query := last_query st;
     last_elapsed := last_elapsed st;
     last_row_count := last_row_count st;
     duckdb_conn := duckdb_conn st;
     extension_loaded := b |}.

(** [conn.execute("SELECT snowflake_version();").fetchone()[0]] inside its
    [try]; any exception (from [execute], from [fetchone], from indexing
    [None] or an empty row) gives ["unknown"]. *)
Definition fetch_version (conn : Conn E) : Conn E * string :=
  match execute conn "SELECT snowflake_version();" with
  | (conn, Returns cur) =>
      match fetchone cur with
      | Returns (Some (v :: _)) => (conn, v)
      | Returns (Some []) => (conn, "unknown")
      | Returns None => (conn, "unknown")
      | Raises _ => (conn, "unknown")
      end
  | (conn, Raises _) => (conn, "unknown")
  end.

Definition _ensure_extension (st : Session E T) (conn : Conn E)
  : Session E T * Conn E * (bool * string) :=
  if extension_loaded st then (st, conn, (true, "already loaded"))
  else
    (* try: INSTALL except Exception: pass *)
    let (conn, _) := execute conn "INSTALL snowflake FROM community;" in
    match execute conn "LOAD snowflake;" with
    | (conn, Raises msg) => (st, conn, (false, msg))
    | (conn, Returns _) =>
        let (conn, ver) := fetch_version conn in
        (set_extension_loaded st true, conn, (true, ver))
    end.

(** ** [_run_query_duckdb] and [_snowflake_query] *)

Definition _run_query_duckdb (clk : K) (conn : Conn E) (sql : string)
  : K * Conn E * (option DataFrame * T * string) :=
  let (clk, t0) := perf_counter clk in
  match execute conn sql with
  | (conn, Raises msg) => (clk, conn, (None, time_zero, msg))
  | (conn, Returns result) =>
      match fetchdf result with
      | Raises msg => (clk, conn, (None, time_zero, msg))
      | Returns df =>
          let (clk, t1) := perf_counter clk in
          (clk, conn, (Some df, time_sub t1 t0, ""))
      end
  end.

(** [escaped] and [wrapper] of [_snowflake_query]. *)
Definition escape_quotes (sf_sql : string) : string :=
  replace_char quote "''" sf_sql.

Definition wrapper (sf_sql secret : string) : string :=
  let escaped := escape_quotes sf_sql in
  "SELECT * FROM snowflake_query('" ++ escaped ++ "', '" ++ secret ++ "');".

Definition _snowflake_query (clk : K) (conn : Conn E) (sf_sql secret : string)
  : K * Conn E * (option DataFrame * T * string) :=
  _run_query_duckdb clk conn (wrapper sf_sql secret).

(** ** [_sf_fetch_list] *)

(** The selector [col : str | int]. *)
Inductive ColSel : Type :=
| ColName (name : string)
| ColIndex (i : Z).

(** The [for c in df.columns] loop: the first label equal to [col_lower]
    once lowered, if any. *)
Definition find_column (df : DataFrame) (col_lower : string) : option string :=
  find (fun c => String.eqb (lower c) col_lower) (columns df).

(** The body of [if df is not None and not df.empty:]. *)
Definition column_values (df : DataFrame) (col : ColSel)
  : PyResult (list string) :=
  match col with
  | ColName col =>
      (* case-insensitive column lookup *)
      let col_lower := lower col in
      match find_column df col_lower with
      | Some c => getitem_dropna_tolist df c
      | None => (* fallback: first column *) iloc_col_tolist df 0
      end
  | ColIndex i => iloc_col_tolist df i
  end.

Definition _sf_fetch_list (clk : K) (conn : Conn E) (sf_sql secret : string)
    (col : ColSel) : K * Conn E * PyResult (list string) :=
  let '(clk, conn, (df, _, err)) := _snowflake_query clk conn sf_sql secret in
  match df with
  | Some df =>
      if negb (df_empty df) then (clk, conn, column_values df col)
      else (clk, conn, Returns [])
  | None => (clk, conn, Returns [])
  end.

(** ** The disconnect handler *)

(** The body of [if disconnect_clicked:].  Besides the new session state it
    gives the final state of the handle that is dropped, for its trace. *)
Definition on_disconnect (st : Session E T) : Session E T * option (Conn E) :=
  let dropped :=
    match duckdb_conn st with
    | Some conn =>
        (* try: DROP SECRET except Exception: pass *)
        let (conn, _) := execute conn (drop_secret_sql (secret_name st)) in
        if truthy (attach_alias st) then
          (* try: DETACH except Exception: pass *)
          let (conn, _) := execute conn ("DETACH " ++ attach_alias st ++ ";") in
          Some conn
        else Some conn
    | None => None
    end in
  ({| connected := false;
      secret_name := "";
      attach_alias := "";
      conn_string_preview := conn_string_preview st;
      query_history := query_history st;
      current_db := None;
      current_schema := None;
      current_table := None;
      last_result := last_result st;
      last_query := last_query st;
      last_elapsed := last_elapsed st;
      last_row_count := last_row_count st;
      duckdb_conn := None;
      extension_loaded := false |},
   dropped).

(** ** Query history *)

(** [query_history.insert(0, e)] followed by [query_history[:50]]. *)
Definition history_insert (e : HistoryEntry) (h : list HistoryEntry)
  : list HistoryEntry :=
  firstn 50 (e :: h).

(** Inserting the entries [es], oldest first. *)
Definition insert_all (es h : list HistoryEntry) : list HistoryEntry :=
  fold_left (fun h e => history_insert e h) es h.

Definition set_query_history (st : Session E T) (h : list HistoryEntry)
  : Session E T :=
  {| connected := connected st;
     secret_name := secret_name st;
     attach_alias := attach_alias st;
     conn_string_preview := conn_string_preview st;
     query_history := h;
     current_db := current_db st;
     current_schema := current_schema st;
     current_table := current_table st;
     last_result := last_result st;
     last_query := last_query st;
     last_elapsed := last_elapsed st;
     last_row_count := last_row_count st;
     duckdb_conn := duckdb_conn st;
     extension_loaded := extension_loaded st |}.

Definition set_last (st : Session E T) (df : DataFrame) (q : string)
    (elapsed : T) : Session E T :=
  {| connected := connected st;
     secret_name := secret_name st;
     attach_alias := attach_alias st;
     conn_string_preview := conn_string_preview st;
     query_history := query_history st;
     current_db := current_db st;
     current_schema := current_schema st;
     current_table := current_table st;
     last_result := Some df;
     last_query := q;
     last_elapsed := elapsed;
     last_row_count := df_len df;
     duckdb_conn := duckdb_conn st;
     extension_loaded := extension_loaded st |}.

(** The entry either tab records. *)
Definition history_entry (clk : K) (sql mode : string) (df : DataFrame)
    (elapsed : T) : HistoryEntry :=
  {| h_sql := sql;
     h_mode := mode;
     h_rows := df_len df;
     h_time := format_2f_s elapsed;
     h_ts := strftime_hms clk |}.

(** The query tab, from [if sf_query:] on: [sf_query] is [None] or the
    text to run. *)
Definition tab_query (st : Session E T) (clk : K) (conn : Conn E)
    (sf_query : option string) (secret : string)
  : Session E T * K * Conn E :=
  match sf_query with
  | None => (st, clk, conn)
  | Some sf_query =>
      if truthy sf_query then
        let '(clk, conn, (df, elapsed, err)) :=
          _snowflake_query clk conn sf_query secret in
        if truthy err then (st, clk, conn)
        else
          match df with
          | Some df =>
              let st := set_last st df sf_query elapsed in
              let e := history_entry clk sf_query "snowflake_query" df elapsed in
              (set_query_history st (history_insert e (query_history st)),
               clk, conn)
          | None => (st, clk, conn)
          end
      else (st, clk, conn)
  end.

(** Sequencing of calls on the page: the first that raises ends them. *)
Definition and_then (A B : Type) (r : W * PyResult A)
    (k : W -> A -> W * PyResult B) : W * PyResult B :=
  match r with
  | (page, Returns a) => k page a
  | (page, Raises msg) => (page, Raises msg)
  end.

(** The local tab, from [if not df.empty:] on: the frame and the three
    export buttons, their keys made of the first 20 characters of the
    statement.  Only the Parquet export is inside a [try]. *)
Definition show_local_result (page : W) (stmt : string) (df : DataFrame)
  : W * PyResult unit :=
  if negb (df_empty df) then
    let head := take_code_points 20 stmt in
    and_then (st_dataframe page df) (fun page _ =>
    and_then (page, to_csv df) (fun page csv =>
    and_then (st_download_button page csv ("lcsv_" ++ head)) (fun page _ =>
    and_then (page, to_json df) (fun page json =>
    and_then (st_download_button page json ("ljson_" ++ head)) (fun page _ =>
    match
      (* try: *)
      and_then (page, to_parquet df) (fun page parquet =>
      st_download_button page parquet ("lpq_" ++ head))
    with
    | (page, Returns _) => (page, Returns tt)
    | (page, Raises _) =>
        (* except Exception: *)
        st_button page ("lpqna_" ++ head)
    end)))))
  else
    (* st.success(...) *)
    (page, Returns tt).

(** The local tab: the loop [for stmt in statements].  An exception of
    the drawing of a result is caught nowhere: it ends the loop and the
    run, after the history entry of that statement was inserted. *)
Fixpoint tab_local (st : Session E T) (clk : K) (conn : Conn E) (page : W)
    (statements : list string) : LocalRun E K T W :=
  match statements with
  | [] => mkLocalRun st clk conn page None
  | stmt :: rest =>
      let '(clk, conn, (df, elapsed, err)) := _run_query_duckdb clk conn stmt in
      if truthy err then
        (* st.error(...) *)
        tab_local st clk conn page rest
      else
        match df with
        | Some df =>
            let e := history_entry clk stmt "duckdb_local" df elapsed in
            let st := set_query_history st (history_insert e (query_history st)) in
            match show_local_result page stmt df with
            | (page, Returns _) => tab_local st clk conn page rest
            | (page, Raises msg) => mkLocalRun st clk conn page (Some msg)
            end
        | None => tab_local st clk conn page rest
        end
  end.

End App.

(** ** Concrete engines and clocks *)

(** An engine that answers the statements it receives from a script, in
    order, and raises once the script is used up. *)
Definition Script : Type := list (PyResult Cursor).

#[export] Instance script_engine : Engine Script := {
  engine_execute script _ :=
    match script with
    | [] => ([], Raises "script exhausted")
    | r :: rest => (rest, r)
    end
}.

(** A clock that ticks once per reading; readings are whole seconds. *)
(** A page that remembers the keys used in the run so far and refuses a
    key used twice, as Streamlit does. *)
Definition Registry : Type := list string.

Definition register_key (keys : Registry) (key : string)
  : Registry * PyResult unit :=
  if existsb (String.eqb key) keys then
    (keys, Raises ("There are multiple elements with the same key " ++ key))
  else (key :: keys, Returns tt).

#[export] Instance key_registry : Widgets Registry := {
  st_dataframe keys _ := (keys, Returns tt);
  st_download_button keys _ key := register_key keys key;
  st_button keys key := register_key keys key
}.

(** Serialisers for the examples: the CSV text is the header line, the
    JSON text the empty array, and no Parquet engine is installed. *)
Definition header_export : Export :=
  {| to_csv := fun df => Returns (String.concat "," (columns df));
     to_json := fun _ => Returns "[]";
     to_parquet := fun _ => Raises "Unable to find a usable engine" |}.

#[export] Instance tick_clock : Clock nat nat := {
  perf_counter k := (S k, k);
  time_sub t1 t0 := (t1 - t0)%nat;
  time_zero := 0%nat;
  format_2f_s _ := "0.00s";
  strftime_hms _ := "00:00:00"
}.

(** A cursor over a frame, and one whose fetches raise. *)
Definition cursor_of (df : DataFrame) : Cursor :=
  {| fetchdf := Returns df; fetchone := Returns None |}.

Definition cursor_raising (msg : string) : Cursor :=
  {| fetchdf := Raises msg; fetchone := Raises msg |}.

Definition empty_frame : DataFrame :=
  {| df_columns := []; df_index_len := 0 |}.

Definition fresh (script : Script) : Conn Script :=
  {| engine := script; issued := [] |}.

(** A result of SHOW DATABASES with a null in its [name] column. *)
Definition frame_with_null : DataFrame :=
  {| df_columns :=
       [ ("created_on", [ValueCell "2024-01-01"; ValueCell "2024-01-02";
                         ValueCell "2024-01-03"]);
         ("NAME", [ValueCell "DB1"; NoneCell; ValueCell "DB2"]) ];
     df_index_len := 3 |}.

(** Entries numbered by their row count, for the history examples. *)
Definition numbered_entry (n : nat) : HistoryEntry :=
  {| h_sql := "SELECT 1"; h_mode := "duckdb_local"; h_rows := n;
     h_time := "0.00s"; h_ts := "00:00:00" |}.

(** A session as [_DEFAULTS] with a live handle, a secret and an alias. *)
Definition connected_session (conn : Conn Script) : Session Script nat :=
  {| connected := true;
     secret_name := "sf_explorer_secret";
     attach_alias := "sf";
     conn_string_preview := "account=xy12345;user=alice;password=****";
     query_history := [];
     current_db := Some "DB1";
     current_schema := None;
     current_table := None;
     last_result := None;
     last_query := "";
     last_elapsed := 0;
     last_row_count := 0;
     duckdb_conn := Some conn;
     extension_loaded := true |}.

(** ** The clause groups of a CREATE SECRET, as the specification names them *)

Inductive AuthMethod : Type := Password | KeyPair | OAuthToken.

(** The entries of the sidebar's selectbox. *)
Definition auth_method_label (m : AuthMethod) : string :=
  match m with
  | Password => "Password"
  | KeyPair => "Key Pair"
  | OAuthToken => "OAuth Token"
  end.

Definition spec_auth_clauses (m : AuthMethod)
    (password oauth_token private_key_pem private_key_passphrase : string)
  : list string :=
  match m with
  | Password => ["PASSWORD '" ++ password ++ "'"]
  | KeyPair =>
      match private_key_passphrase with
      | EmptyString =>
          [ "AUTH_TYPE 'key_pair'"; "PRIVATE_KEY '" ++ private_key_pem ++ "'" ]
      | String _ _ =>
          [ "AUTH_TYPE 'key_pair'"; "PRIVATE_KEY '" ++ private_key_pem ++ "'";
            "PRIVATE_KEY_PASSPHRASE '" ++ private_key_passphrase ++ "'" ]
      end
  | OAuthToken => ["AUTH_TYPE 'oauth'"; "TOKEN '" ++ oauth_token ++ "'"]
  end.

(** One optional clause: present exactly when the field is non-empty. *)
Definition spec_optional_clause (keyword value : string) : list string :=
  match value with
  | EmptyString => []
  | String _ _ => [keyword ++ " '" ++ value ++ "'"]
  end.

(** Whether a clause list has a clause with the given keyword. *)
Definition has_clause (keyword : string) (parts : list string) : bool :=
  existsb (String.prefix (keyword ++ " ")) parts.

Definition is_password (m : AuthMethod) : bool :=
  match m with Password => true | _ => false end.
Definition is_key_pair (m : AuthMethod) : bool :=
  match m with KeyPair => true | _ => false end.
Definition is_oauth (m : AuthMethod) : bool :=
  match m with OAuthToken => true | _ => false end.

(** ** Text: [strip], [rstrip] and [split] *)

(** The functions of this part read a [str] through its UTF-8 bytes: a
    whitespace code point is the byte sequence that encodes it, and since
    no encoding is a prefix or a suffix of another code point's, dropping
    such sequences at the ends of UTF-8 text drops exactly the whitespace
    code points there. *)

Fixpoint string_rev (s : string) : string :=
  match s with
  | EmptyString => EmptyString
  | String c rest => string_rev rest ++ String c EmptyString
  end.

Fixpoint string_drop (n : nat) (s : string) : string :=
  match n, s with
  | S n, String _ rest => string_drop n rest
  | _, _ => s
  end.

(** The first sequence of [seqs] that [s] starts with. *)
Fixpoint leading (seqs : list string) (s : string) : option string :=
  match seqs with
  | [] => None
  | w :: rest => if String.prefix w s then Some w else leading rest s
  end.

(** Dropping leading sequences of [seqs], one per unit of fuel. *)
Fixpoint lstrip_fuel (seqs : list string) (fuel : nat) (s : string) : string :=
  match fuel with
  | O => s
  | S fuel =>
      match leading seqs s with
      | Some w => lstrip_fuel seqs fuel (string_drop (String.length w) s)
      | None => s
      end
  end.

Definition lstrip_seqs (seqs : list string) (s : string) : string :=
  lstrip_fuel seqs (String.length s) s.

Definition rstrip_seqs (seqs : list string) (s : string) : string :=
  string_rev (lstrip_seqs (map string_rev seqs) (string_rev s)).

Definition bytes (l : list nat) : string :=
  string_of_list_ascii (map ascii_of_nat l).

(** The code points [str.strip()] removes (those for which [isspace]
    holds): U+0009..U+000D, U+001C..U+0020, U+0085, U+00A0, U+1680,
    U+2000..U+200A, U+2028, U+2029, U+202F, U+205F and U+3000, each in
    UTF-8. *)
Definition whitespace : list string :=
  map bytes
    [ [9]; [10]; [11]; [12]; [13]; [28]; [29]; [30]; [31]; [32];
      [194; 133]; [194; 160]; [225; 154; 128];
      [226; 128; 128]; [226; 128; 129]; [226; 128; 130]; [226; 128; 131];
      [226; 128; 132]; [226; 128; 133]; [226; 128; 134]; [226; 128; 135];
      [226; 128; 136]; [226; 128; 137]; [226; 128; 138];
      [226; 128; 168]; [226; 128; 169]; [226; 128; 175];
      [226; 129; 159]; [227; 128; 128] ].

(** Whether [s] starts, or ends, with one of the sequences. *)
Definition starts_with_any (seqs : list string) (s : string) : bool :=
  existsb (fun w => String.prefix w s) seqs.

Definition ends_with_any (seqs : list string) (s : string) : bool :=
  existsb (fun w => String.prefix (string_rev w) (string_rev s)) seqs.

(** [s.strip()] *)
Definition strip (s : string) : string :=
  rstrip_seqs whitespace (lstrip_seqs whitespace s).

(** [s.rstrip(";")] *)
Definition rstrip_semicolons (s : string) : string := rstrip_seqs [";"] s.

(** [s.split(sep)] for a one-character separator: every occurrence
    splits, and the empty text gives one empty piece. *)
Fixpoint split_char (sep : ascii) (s : string) : list string :=
  match s with
  | EmptyString => [EmptyString]
  | String c rest =>
      if Ascii.eqb c sep then EmptyString :: split_char sep rest
      else
        match split_char sep rest with
        | piece :: pieces => String c piece :: pieces
        | [] => [String c EmptyString]
        end
  end.

(** The list [statements] of the local tab:
    [[s.strip() for s in local_sql.strip().rstrip(";").split(";") if s.strip()]]. *)
Definition statements_of (local_sql : string) : list string :=
  map strip
    (filter (fun s => truthy (strip s))
       (split_char ";" (rstrip_semicolons (strip local_sql)))).

(** The query of the remote tab, from the two buttons and the editor:
    [None], the stripped text, or its EXPLAIN. *)
Definition sf_query_of (sf_run sf_explain : bool) (sf_sql : string)
  : option string :=
  if sf_run && truthy (strip sf_sql) then Some (strip sf_sql)
  else if sf_explain && truthy (strip sf_sql) then
    Some ("EXPLAIN " ++ rstrip_semicolons (strip sf_sql))
  else None.

(** The session key the history tab's re-run button writes the entry's
    SQL to. *)
Definition rerun_target (entry : HistoryEntry) : string :=
  if String.eqb (h_mode entry) "snowflake_query" then "sf_sql_input"
  else "local_sql_input".

(** ** Messages shown to the user *)

Inductive Notice : Type :=
| st_error (text : string)
| st_success (text : string)
| st_caption (text : string).

Definition newline : string := String "010"%char EmptyString.

(** ** Connecting *)

Section Handlers.

Context {E : Type} `{Eng : Engine E}.
Context {K T : Type} `{Clk : Clock K T}.
Context {W : Type} `{Wid : Widgets W}.
Context {Exp : Export}.

(** [duckdb.connect(database=":memory:")]: the state of a new in-memory
    database. *)
Variable memory_db : E.

(** The text [f"{row[label]}"] gives for a label of the first row: pandas'
    rendering of the value the label selects there. *)
Variable item_text : list (string * Cell) -> string -> string.

Definition set_duckdb_conn (st : Session E T) (c : option (Conn E))
  : Session E T :=
  {| connected := connected st;
     secret_name := secret_name st;
     attach_alias := attach_alias st;
     conn_string_preview := conn_string_preview st;
     query_history := query_history st;
     current_db := current_db st;
     current_schema := current_schema st;
     current_table := current_table st;
     last_result := last_result st;
     last_query := last_query st;
     last_elapsed := last_elapsed st;
     last_row_count := last_row_count st;
     duckdb_conn := c;
     extension_loaded := extension_loaded st |}.

(** [_get_duckdb]: the cached handle, opened on first use.  The handle
    returned is the object the session holds. *)
Definition _get_duckdb (st : Session E T) : Session E T * Conn E :=
  match duckdb_conn st with
  | None =>
      let conn := {| engine := memory_db; issued := [] |} in
      (set_duckdb_conn st (Some conn), conn)
  | Some conn => (st, conn)
  end.

(** The statement of [_test_connection_via_duckdb]. *)
Definition test_connection_sql (secret_name : string) : string :=
  "SELECT * FROM snowflake_query('SELECT CURRENT_VERSION() AS V, CURRENT_ACCOUNT() AS A, "
  ++ "CURRENT_USER() AS U, CURRENT_ROLE() AS R', '" ++ secret_name ++ "');".

(** [df.iloc[0]]: the first row, as labelled values; an [IndexError] on a
    frame without rows. *)
Definition iloc_row (df : DataFrame) : PyResult (list (string * Cell)) :=
  if (df_index_len df =? 0)%nat then
    Raises "single positional indexer is out-of-bounds"
  else Returns (map (fun p => (fst p, hd NaNCell (snd p))) (df_columns df)).

(** [f"{row[label]}"]: a [KeyError] (whose text is the quoted label) when
    the row has no such label. *)
Definition row_item (row : list (string * Cell)) (label : string)
  : PyResult string :=
  if existsb (fun p => String.eqb (fst p) label) row then
    Returns (item_text row label)
  else Raises ("'" ++ label ++ "'").

(** The f-string [info], its four items read in order. *)
Definition connection_info (row : list (string * Cell)) : PyResult string :=
  match row_item row "V" with
  | Raises msg => Raises msg
  | Returns v =>
      match row_item row "A" with
      | Raises msg => Raises msg
      | Returns a =>
          match row_item row "U" with
          | Raises msg => Raises msg
          | Returns u =>
              match row_item row "R" with
              | Raises msg => Raises msg
              | Returns r =>
                  Returns ("Snowflake v" ++ v ++ "  •  Account: " ++ a
                           ++ "  •  User: " ++ u ++ "  •  Role: " ++ r)
              end
          end
      end
  end.

Definition _test_connection_via_duckdb (conn : Conn E) (secret_name : string)
  : Conn E * (bool * string) :=
  match execute conn (test_connection_sql secret_name) with
  | (conn, Raises msg) => (conn, (false, msg))
  | (conn, Returns result) =>
      match fetchdf result with
      | Raises msg => (conn, (false, msg))
      | Returns df =>
          match iloc_row df with
          | Raises msg => (conn, (false, msg))
          | Returns row =>
              match connection_info row with
              | Raises msg => (conn, (false, msg))
              | Returns info => (conn, (true, info))
              end
          end
      end
  end.

(** [";".join(preview_parts)] of the connect handler. *)
Definition connection_preview
    (account user auth_method warehouse database role : string) : string :=
  let preview_parts := ["account=" ++ account; "user=" ++ user] in
  let preview_parts :=
    if String.eqb auth_method "Password" then
      append preview_parts "password=****"
    else if String.eqb auth_method "Key Pair" then
      append preview_parts "auth_type=key_pair;private_key=****"
    else if String.eqb auth_method "OAuth Token" then
      append preview_parts "auth_type=oauth;token=****"
    else preview_parts in
  let preview_parts :=
    if truthy warehouse then append preview_parts ("warehouse=" ++ warehouse)
    else preview_parts in
  let preview_parts :=
    if truthy database then append preview_parts ("database=" ++ database)
    else preview_parts in
  let preview_parts :=
    if truthy role then append preview_parts ("role=" ++ role)
    else preview_parts in
  String.concat ";" preview_parts.

Definition set_connected (st : Session E T) (name preview : string)
  : Session E T :=
  {| connected := true;
     secret_name := name;
     attach_alias := attach_alias st;
     conn_string_preview := preview;
     query_history := query_history st;
     current_db := current_db st;
     current_schema := current_schema st;
     current_table := current_table st;
     last_result := last_result st;
     last_query := last_query st;
     last_elapsed := last_elapsed st;
     last_row_count := last_row_count st;
     duckdb_conn := duckdb_conn st;
     extension_loaded := extension_loaded st |}.

(** The body of [if connect_clicked:].  The handle the helpers work on is
    the one the session holds, so the session ends with the handle as the
    helpers left it. *)
Definition on_connect (st : Session E T)
    (account user auth_method password warehouse database role
     oauth_token private_key_pem private_key_passphrase : string)
  : Session E T * list Notice :=
  if negb (truthy account) || negb (truthy user) then
    (st, [st_error "Account and Username are required."])
  else
    let (st, conn) := _get_duckdb st in
    let '(st, conn, (ext_ok, ext_detail)) := _ensure_extension st conn in
    if negb ext_ok then
      (set_duckdb_conn st (Some conn),
       [st_error ("Failed to load extension: " ++ ext_detail)])
    else
      let secret_name := "sf_explorer_secret" in
      let '(conn, (sec_ok, sec_msg)) :=
        _create_secret conn secret_name account user auth_method password
          warehouse database role oauth_token private_key_pem
          private_key_passphrase in
      if negb sec_ok then
        (set_duckdb_conn st (Some conn),
         [st_error ("Secret creation failed: " ++ sec_msg)])
      else
        let '(conn, (ok, info)) :=
          _test_connection_via_duckdb conn secret_name in
        if ok then
          (set_duckdb_conn
             (set_connected st secret_name
                (connection_preview account user auth_method warehouse
                   database role))
             (Some conn),
           [st_success ("✅ " ++ info); st_caption ("Extension: " ++ ext_detail)])
        else
          (set_duckdb_conn st (Some conn),
           [st_error ("Connection test failed:" ++ newline ++ newline ++ info)]).

(** ** The two query tabs, from their buttons *)

(** The remote tab: the query is built from the buttons and the editor
    and run. *)
Definition tab_query_run (st : Session E T) (clk : K) (conn : Conn E)
    (sf_run sf_explain : bool) (sf_sql secret : string)
  : Session E T * K * Conn E :=
  tab_query st clk conn (sf_query_of sf_run sf_explain sf_sql) secret.

(** The local tab: [if local_run and local_sql.strip():]. *)
Definition tab_local_run (st : Session E T) (clk : K) (conn : Conn E)
    (page : W) (local_run : bool) (local_sql : string) : LocalRun E K T W :=
  if local_run && truthy (strip local_sql) then
    tab_local st clk conn page (statements_of local_sql)
  else mkLocalRun st clk conn page None.

End Handlers.

(** ** Reading a quoted literal *)

(** How SQL reads the text after an opening quote: a doubled quote stands
    for one quote and a single one closes the literal.  Gives the
    literal's value and the text after the closing quote, or nothing when
    the literal is not closed. *)
Fixpoint read_quoted (s : string) : option (string * string) :=
  match s with
  | EmptyString => None
  | String c rest =>
      if Ascii.eqb c quote then
        match rest with
        | String d rest' =>
            if Ascii.eqb d quote then
              match read_quoted rest' with
              | Some (v, t) => Some (String quote v, t)
              | None => None
              end
            else Some (EmptyString, rest)
        | EmptyString => Some (EmptyString, EmptyString)
        end
      else
        match read_quoted rest with
        | Some (v, t) => Some (String c v, t)
        | None => None
        end
  end.

(** A frame as the connection test expects it, and the plain rendering of
    a row item. *)
Definition probe_frame : DataFrame :=
  {| df_columns :=
       [ ("V", [ValueCell "9.1.0"]); ("A", [ValueCell "XY12345"]);
         ("U", [ValueCell "ALICE"]); ("R", [ValueCell "PUBLIC"]) ];
     df_index_len := 1 |}.

Definition plain_item (row : list (string * Cell)) (label : string) : string :=
  match find (fun p => String.eqb (fst p) label) row with
  | Some (_, v) => astype_str v
  | None => EmptyString
  end.

Definition disconnected_session : Session Script nat := _DEFAULTS.

(** A statement the engine rejects: [execute] raises, or [fetchdf] does. *)
Definition rejected (r : PyResult Cursor) : Prop :=
  match r with
  | Raises _ => True
  | Returns cur => exists msg, fetchdf cur = Raises msg
  end.

(** * Properties *)

Section Properties.

Context {E : Type} `{Eng : Engine E}.
Context {K T : Type} `{Clk : Clock K T}.
Context {Low : Lowering}.
Context {W : Type} `{Wid : Widgets W}.
Context {Exp : Export}.

(** ** Executing a statement *)

Lemma execute_eq (conn : Conn E) (sql : string) (e : E) (r : PyResult Cursor) :
  engine_execute (engine conn) sql = (e, r) ->
  execute conn sql = ({| engine := e; issued := List.app (issued conn) [sql] |}, r).
Proof.
  intros Hrun. unfold execute. rewrite Hrun. reflexivity.
Qed.

Lemma execute_mk (e e' : E) (l : list string) (sql : string)
    (r : PyResult Cursor) :
  engine_execute e sql = (e', r) ->
  execute {| engine := e; issued := l |} sql
  = ({| engine := e'; issued := List.app l [sql] |}, r).
Proof.
  intros Hrun. apply execute_eq. exact Hrun.
Qed.

Lemma execute_issued (conn : Conn E) (sql : string) :
  issued (fst (execute conn sql)) = List.app (issued conn) [sql].
Proof.
  unfold execute. destruct (engine_execute (engine conn) sql). reflexivity.
Qed.

Lemma app_two {A : Type} (l : list A) (a b : A) :
  List.app (List.app l [a]) [b] = List.app l [a; b].
Proof.
  rewrite <- app_assoc. reflexivity.
Qed.

(** ** The clause list of [_create_secret] *)

Lemma secret_parts_spec (account user password warehouse database role
    oauth_token private_key_pem private_key_passphrase : string)
    (m : AuthMethod) :
  secret_parts account user (auth_method_label m) password warehouse database
    role oauth_token private_key_pem private_key_passphrase
  = List.app
      [ "TYPE snowflake"; "ACCOUNT '" ++ account ++ "'"; "USER '" ++ user ++ "'" ]
      (List.app
         (spec_auth_clauses m password oauth_token private_key_pem
            private_key_passphrase)
         (List.app (spec_optional_clause "DATABASE" database)
            (List.app (spec_optional_clause "WAREHOUSE" warehouse)
               (spec_optional_clause "ROLE" role)))).
Proof.
  destruct m, private_key_passphrase, database, warehouse, role; reflexivity.
Qed.

Lemma create_secret_issued (conn : Conn E)
    (name account user auth_method password warehouse database role
     oauth_token private_key_pem private_key_passphrase : string) :
  issued (fst (_create_secret conn name account user auth_method password
                 warehouse database role oauth_token private_key_pem
                 private_key_passphrase))
  = List.app (issued conn)
      [ drop_secret_sql name;
        create_secret_sql name
          (secret_parts account user auth_method password warehouse database
             role oauth_token private_key_pem private_key_passphrase) ].
Proof.
  unfold _create_secret, execute.
  destruct (engine_execute (engine conn) (drop_secret_sql name)) as [e1 r1].
  cbn [engine issued].
  match goal with
  | |- context [engine_execute e1 ?sql] =>
      destruct (engine_execute e1 sql) as [e2 [cur | msg]]
  end; cbn [fst issued]; apply app_two.
Qed.

(** C1: for each of the three authentication methods, [_create_secret]
    issues exactly two statements, one [DROP SECRET IF EXISTS] and then one
    [CREATE SECRET]; the clause list of the CREATE is the three fixed
    clauses, then the clause group of the chosen method and no other
    (PASSWORD; or AUTH_TYPE 'key_pair' with PRIVATE_KEY, and the passphrase
    only when it is non-empty; or AUTH_TYPE 'oauth' with TOKEN), then
    DATABASE, WAREHOUSE and ROLE, each exactly when its field is
    non-empty. *)
Theorem create_secret_clauses :
  forall (conn : Conn E)
         (name account user password warehouse database role
          oauth_token private_key_pem private_key_passphrase : string)
         (m : AuthMethod),
    let parts :=
      secret_parts account user (auth_method_label m) password warehouse
        database role oauth_token private_key_pem private_key_passphrase in
    issued (fst (_create_secret conn name account user (auth_method_label m)
                   password warehouse database role oauth_token
                   private_key_pem private_key_passphrase))
    = List.app (issued conn)
        [ "DROP SECRET IF EXISTS " ++ name ++ ";";
          "CREATE SECRET " ++ name ++ " (" ++ String.concat ", " parts ++ ");" ]
    /\ parts
       = List.app
           [ "TYPE snowflake"; "ACCOUNT '" ++ account ++ "'";
             "USER '" ++ user ++ "'" ]
           (List.app
              (spec_auth_clauses m password oauth_token private_key_pem
                 private_key_passphrase)
              (List.app (spec_optional_clause "DATABASE" database)
                 (List.app (spec_optional_clause "WAREHOUSE" warehouse)
                    (spec_optional_clause "ROLE" role))))
    /\ has_clause "PASSWORD" parts = is_password m
    /\ has_clause "AUTH_TYPE" parts = (is_key_pair m || is_oauth m)%bool
    /\ has_clause "PRIVATE_KEY" parts = is_key_pair m
    /\ has_clause "PRIVATE_KEY_PASSPHRASE" parts
       = (is_key_pair m && truthy private_key_passphrase)%bool
    /\ has_clause "TOKEN" parts = is_oauth m
    /\ has_clause "DATABASE" parts = truthy database
    /\ has_clause "WAREHOUSE" parts = truthy warehouse
    /\ has_clause "ROLE" parts = truthy role.
Proof.
  intros conn name account user password warehouse database role oauth_token
    private_key_pem private_key_passphrase m parts.
  split; [apply create_secret_issued |].
  split; [apply secret_parts_spec |].
  subst parts. rewrite secret_parts_spec.
  destruct m, private_key_passphrase, database, warehouse, role;
    repeat split; reflexivity.
Qed.

(** C8: [_create_secret] issues the drop first and then the create, each
    once and whatever the drop answers; its result is decided by the create
    alone: [(True, "Secret created")] when it returns, and [(False, text)]
    with the engine's error text when it raises. *)
Theorem create_secret_drop_ignored :
  forall (conn : Conn E)
         (name account user auth_method password warehouse database role
          oauth_token private_key_pem private_key_passphrase : string)
         (e1 e2 : E) (r1 r2 : PyResult Cursor),
    let drop := "DROP SECRET IF EXISTS " ++ name ++ ";" in
    let create :=
      "CREATE SECRET " ++ name ++ " (" ++
      String.concat ", "
        (secret_parts account user auth_method password warehouse database
           role oauth_token private_key_pem private_key_passphrase) ++ ");" in
    engine_execute (engine conn) drop = (e1, r1) ->
    engine_execute e1 create = (e2, r2) ->
    _create_secret conn name account user auth_method password warehouse
      database role oauth_token private_key_pem private_key_passphrase
    = ({| engine := e2; issued := List.app (issued conn) [drop; create] |},
       match r2 with
       | Returns _ => (true, "Secret created")
       | Raises msg => (false, msg)
       end).
Proof.
  intros conn name account user auth_method password warehouse database role
    oauth_token private_key_pem private_key_passphrase e1 e2 r1 r2 drop create
    Hdrop Hcreate.
  unfold _create_secret.
  change (drop_secret_sql name) with drop.
  rewrite (execute_eq conn drop Hdrop).
  match goal with
  | |- context [execute ?c ?sql] =>
      change sql with create;
      rewrite (execute_eq c create Hcreate)
  end.
  cbn [issued]. rewrite app_two. destruct r2; reflexivity.
Qed.

(** ** The passthrough wrapper *)

Lemma string_app_assoc (a b c : string) : (a ++ b) ++ c = a ++ (b ++ c).
Proof.
  induction a as [| x a IH]; cbn; [reflexivity | now rewrite IH].
Qed.

Lemma escape_quotes_quote (s : string) :
  escape_quotes (String quote s) = String quote (String quote (escape_quotes s)).
Proof. reflexivity. Qed.

Lemma escape_quotes_other (c : ascii) (s : string) :
  c <> quote -> escape_quotes (String c s) = String c (escape_quotes s).
Proof.
  intros Hc. unfold escape_quotes. cbn [replace_char].
  destruct (Ascii.eqb_spec c quote) as [Heq | _]; [contradiction | reflexivity].
Qed.

Lemma escape_quotes_app (a b : string) :
  escape_quotes (a ++ b) = escape_quotes a ++ escape_quotes b.
Proof.
  induction a as [| c a IH]; [reflexivity |].
  change (String c a ++ b) with (String c (a ++ b)).
  destruct (Ascii.eqb_spec c quote) as [-> | Hc].
  - rewrite !escape_quotes_quote, IH. reflexivity.
  - rewrite !escape_quotes_other, IH by assumption. reflexivity.
Qed.

Lemma escape_quotes_count (s : string) :
  count_char quote (escape_quotes s) = 2 * count_char quote s.
Proof.
  induction s as [| c s IH]; [reflexivity |].
  destruct (Ascii.eqb_spec c quote) as [-> | Hc].
  - rewrite escape_quotes_quote. cbn [count_char].
    rewrite Ascii.eqb_refl, IH. lia.
  - rewrite escape_quotes_other by assumption. cbn [count_char].
    destruct (Ascii.eqb_spec c quote) as [Heq | _]; [contradiction |].
    rewrite IH. lia.
Qed.

Lemma escape_quotes_injective (s1 s2 : string) :
  escape_quotes s1 = escape_quotes s2 -> s1 = s2.
Proof.
  revert s2. induction s1 as [| c1 s1 IH]; intros [| c2 s2] Heq.
  - reflexivity.
  - destruct (Ascii.eqb_spec c2 quote) as [-> | Hc2].
    + rewrite escape_quotes_quote in Heq. discriminate.
    + rewrite escape_quotes_other in Heq by assumption. discriminate.
  - destruct (Ascii.eqb_spec c1 quote) as [-> | Hc1].
    + rewrite escape_quotes_quote in Heq. discriminate.
    + rewrite escape_quotes_other in Heq by assumption. discriminate.
  - destruct (Ascii.eqb_spec c1 quote) as [-> | Hc1];
      destruct (Ascii.eqb_spec c2 quote) as [-> | Hc2].
    + rewrite !escape_quotes_quote in Heq. injection Heq as Heq.
      now rewrite (IH s2 Heq).
    + rewrite escape_quotes_quote, escape_quotes_other in Heq by assumption.
      injection Heq as Hc _. congruence.
    + rewrite escape_quotes_quote, escape_quotes_other in Heq by assumption.
      injection Heq as Hc _. congruence.
    + rewrite !escape_quotes_other in Heq by assumption.
      injection Heq as Hc Heq. now rewrite Hc, (IH s2 Heq).
Qed.

(** C2: the wrapper text is the fixed opening, the escaped SQL, and then the
    secret name as given, between quotes, before the closing [);] -- so the
    text ends with the secret name unmodified and the closing.  Escaping
    doubles every single quote where it stands (the quotes of the output
    are twice those of the input) and is injective. *)
Theorem wrapper_escapes_and_ends_with_secret :
  forall sf_sql secret : string,
    wrapper sf_sql secret
    = ("SELECT * FROM snowflake_query('" ++ escape_quotes sf_sql ++ "', '")
      ++ secret ++ "');"
    /\ (forall pre post : string,
           sf_sql = pre ++ String quote post ->
           escape_quotes sf_sql
           = escape_quotes pre ++ String quote (String quote (escape_quotes post)))
    /\ count_char quote (escape_quotes sf_sql) = 2 * count_char quote sf_sql
    /\ (forall other : string,
           escape_quotes other = escape_quotes sf_sql -> other = sf_sql).
Proof.
  intros sf_sql secret. repeat split.
  - unfold wrapper. cbv zeta. rewrite !string_app_assoc. reflexivity.
  - intros pre post ->. rewrite escape_quotes_app, escape_quotes_quote.
    reflexivity.
  - apply escape_quotes_count.
  - intros other. apply escape_quotes_injective.
Qed.

(** ** The dispatcher *)

(** C9, as the code has it: when [execute] or [fetchdf] raises,
    [_run_query_duckdb] returns no result, the literal zero as elapsed time
    (never the time measured so far) and the text of the exception, as it
    is; when both return it gives the frame, the difference of the two
    clock readings and the empty text.  [_snowflake_query] is the same call
    on the wrapper text. *)
Theorem run_query_duckdb_result :
  forall (clk clk1 : K) (t0 : T) (conn : Conn E) (sql : string)
         (e1 : E) (r : PyResult Cursor),
    perf_counter clk = (clk1, t0) ->
    engine_execute (engine conn) sql = (e1, r) ->
    let conn1 := {| engine := e1; issued := List.app (issued conn) [sql] |} in
    _run_query_duckdb clk conn sql
    = match r with
      | Raises msg => (clk1, conn1, (None, time_zero, msg))
      | Returns result =>
          match fetchdf result with
          | Raises msg => (clk1, conn1, (None, time_zero, msg))
          | Returns df =>
              (fst (perf_counter clk1), conn1,
               (Some df, time_sub (snd (perf_counter clk1)) t0, ""))
          end
      end
    /\ forall sf_sql secret : string,
         _snowflake_query clk conn sf_sql secret
         = _run_query_duckdb clk conn (wrapper sf_sql secret).
Proof.
  intros clk clk1 t0 conn sql e1 r Hclk Hrun conn1. split; [| reflexivity].
  unfold _run_query_duckdb. rewrite Hclk, (execute_eq conn sql Hrun).
  fold conn1. destruct r as [result | msg]; [| reflexivity].
  destruct (fetchdf result) as [df | msg]; [| reflexivity].
  destruct (perf_counter clk1) as [clk2 t1]. reflexivity.
Qed.

(** ** The extension loader *)

(** C7: with the loaded flag set, [_ensure_extension] answers
    [(True, "already loaded")] and leaves the handle as it is (no statement
    issued).  Otherwise it issues INSTALL and LOAD, whatever INSTALL
    answers; if LOAD raises, the answer is [(False, text)] with the error
    text and the flag stays unset; if LOAD returns, the flag is set and the
    answer is [(True, version)], the version being ["unknown"] when it
    cannot be fetched.  After any successful call, every later call answers
    [(True, "already loaded")] without touching the handle. *)
Theorem ensure_extension_idempotent :
  forall (st : Session E T) (conn : Conn E) (e1 e2 e3 : E)
         (r1 r2 r3 : PyResult Cursor),
    let install := "INSTALL snowflake FROM community;" in
    let load := "LOAD snowflake;" in
    let version := "SELECT snowflake_version();" in
    engine_execute (engine conn) install = (e1, r1) ->
    engine_execute e1 load = (e2, r2) ->
    engine_execute e2 version = (e3, r3) ->
    _ensure_extension st conn
    = (if extension_loaded st then (st, conn, (true, "already loaded"))
       else
         match r2 with
         | Raises msg =>
             (st,
              {| engine := e2; issued := List.app (issued conn) [install; load] |},
              (false, msg))
         | Returns _ =>
             (set_extension_loaded st true,
              {| engine := e3;
                 issued := List.app (issued conn) [install; load; version] |},
              (true,
               match r3 with
               | Returns cur =>
                   match fetchone cur with
                   | Returns (Some (v :: _)) => v
                   | _ => "unknown"
                   end
               | Raises _ => "unknown"
               end))
         end)
    /\ (forall (st' : Session E T) (conn' : Conn E) (detail : string),
           _ensure_extension st conn = (st', conn', (true, detail)) ->
           extension_loaded st' = true
           /\ forall conn2 : Conn E,
                _ensure_extension st' conn2 = (st', conn2, (true, "already loaded"))).
Proof.
  intros st conn e1 e2 e3 r1 r2 r3 install load version Hinstall Hload Hversion.
  subst install load version.
  set (install := "INSTALL snowflake FROM community;") in *.
  set (load := "LOAD snowflake;") in *.
  set (version := "SELECT snowflake_version();") in *.
  assert (Heq : _ensure_extension st conn
                = (if extension_loaded st then (st, conn, (true, "already loaded"))
                   else
                     match r2 with
                     | Raises msg =>
                         (st,
                          {| engine := e2;
                             issued := List.app (issued conn) [install; load] |},
                          (false, msg))
                     | Returns _ =>
                         (set_extension_loaded st true,
                          {| engine := e3;
                             issued := List.app (issued conn) [install; load; version] |},
                          (true,
                           match r3 with
                           | Returns cur =>
                               match fetchone cur with
                               | Returns (Some (v :: _)) => v
                               | _ => "unknown"
                               end
                           | Raises _ => "unknown"
                           end))
                     end)).
  { unfold _ensure_extension. destruct (extension_loaded st); [reflexivity |].
    fold install load.
    rewrite (execute_eq conn install Hinstall).
    erewrite execute_mk by exact Hload.
    rewrite app_two. destruct r2 as [cur2 | msg2]; [| reflexivity].
    unfold fetch_version. fold version.
    erewrite execute_mk by exact Hversion.
    rewrite <- app_assoc. cbn [List.app].
    destruct r3 as [cur3 | msg3]; [| reflexivity].
    destruct (fetchone cur3) as [[[| v row] |] | msg]; reflexivity. }
  split; [exact Heq |].
  intros st' conn' detail Hok. rewrite Heq in Hok.
  assert (Hloaded : extension_loaded st' = true).
  { destruct (extension_loaded st) eqn:Hflag.
    - injection Hok as <- _ _. exact Hflag.
    - destruct r2 as [cur2 | msg2]; [| discriminate].
      injection Hok as <- _ _. reflexivity. }
  split; [exact Hloaded |].
  intros conn2. unfold _ensure_extension. rewrite Hloaded. reflexivity.
Qed.

(** ** Picking a column *)

Lemma find_column_first (df : DataFrame) (name c : string) (s : Series)
    (before after : list (string * Series)) :
  df_columns df = List.app before ((c, s) :: after) ->
  lower c = lower name ->
  (forall p, In p before -> lower (fst p) <> lower name) ->
  find_column df (lower name) = Some c.
Proof.
  intros Hcols Hc Hbefore. unfold find_column, columns. rewrite Hcols.
  clear Hcols. induction before as [| [c' s'] before IH]; cbn.
  - rewrite Hc, String.eqb_refl. reflexivity.
  - destruct (String.eqb_spec (lower c') (lower name)) as [Heq | _].
    + exfalso. apply (Hbefore (c', s')); [now left | exact Heq].
    + apply IH. intros p Hp. apply Hbefore. now right.
Qed.

Lemma find_column_none (df : DataFrame) (name : string) :
  (forall p, In p (df_columns df) -> lower (fst p) <> lower name) ->
  find_column df (lower name) = None.
Proof.
  unfold find_column, columns.
  induction (df_columns df) as [| [c s] cols IH]; intros Hall; cbn.
  - reflexivity.
  - destruct (String.eqb_spec (lower c) (lower name)) as [Heq | _].
    + exfalso. apply (Hall (c, s)); [now left | exact Heq].
    + apply IH. intros p Hp. apply Hall. now right.
Qed.

Lemma filter_label_absent (c : string) (cols : list (string * Series)) :
  (forall p, In p cols -> fst p <> c) ->
  filter (fun p => String.eqb (fst p) c) cols = [].
Proof.
  induction cols as [| [c' s'] cols IH]; intros Hall; cbn.
  - reflexivity.
  - destruct (String.eqb_spec c' c) as [Heq | _].
    + exfalso. apply (Hall (c', s')); [now left | exact Heq].
    + apply IH. intros p Hp. apply Hall. now right.
Qed.

Lemma getitem_unique (df : DataFrame) (c : string) (s : Series)
    (before after : list (string * Series)) :
  df_columns df = List.app before ((c, s) :: after) ->
  (forall p, In p (List.app before after) -> fst p <> c) ->
  getitem_dropna_tolist df c = Returns (astype_str_tolist (dropna s)).
Proof.
  intros Hcols Hothers. unfold getitem_dropna_tolist.
  rewrite Hcols, filter_app. cbn [filter fst].
  rewrite String.eqb_refl.
  rewrite !filter_label_absent.
  - reflexivity.
  - intros p Hp. apply Hothers, in_or_app. now right.
  - intros p Hp. apply Hothers, in_or_app. now left.
Qed.

Lemma iloc_col_at (df : DataFrame) (c : string) (s : Series)
    (before after : list (string * Series)) :
  df_columns df = List.app before ((c, s) :: after) ->
  iloc_col_tolist df (Z.of_nat (length before)) = Returns (astype_str_tolist s).
Proof.
  intros Hcols. unfold iloc_col_tolist. rewrite Hcols.
  rewrite length_app. cbn [length].
  destruct (Z.ltb_spec (Z.of_nat (length before)) 0) as [Hneg | _]; [lia |].
  destruct (Z.leb_spec 0 (Z.of_nat (length before))) as [_ | Hneg]; [| lia].
  destruct (Z.ltb_spec (Z.of_nat (length before))
              (Z.of_nat (length before + S (length after)))) as [_ | Hge];
    [| lia].
  cbn [andb]. rewrite Nat2Z.id, nth_error_app2 by lia.
  rewrite Nat.sub_diag. reflexivity.
Qed.

Lemma iloc_col_first (df : DataFrame) (c : string) (s : Series)
    (rest : list (string * Series)) :
  df_columns df = (c, s) :: rest ->
  iloc_col_tolist df 0 = Returns (astype_str_tolist s).
Proof.
  intros Hcols. apply (@iloc_col_at df c s [] rest). exact Hcols.
Qed.

Lemma nonempty_has_first_column (df : DataFrame) :
  df_empty df = false ->
  exists c s rest, df_columns df = (c, s) :: rest.
Proof.
  unfold df_empty. destruct (df_columns df) as [| [c s] rest]; cbn.
  - discriminate.
  - intros _. now exists c, s, rest.
Qed.

Lemma dropna_length (s : Series) :
  length (dropna s) + length (filter isna s) = length s.
Proof.
  unfold dropna. induction s as [| x s IH]; cbn; [reflexivity |].
  destruct (isna x); cbn; lia.
Qed.

(** ** [_sf_fetch_list] *)

Lemma sf_fetch_list_eq (clk : K) (conn : Conn E) (sf_sql secret : string)
    (col : ColSel) (e1 : E) (r : PyResult Cursor) :
  engine_execute (engine conn) (wrapper sf_sql secret) = (e1, r) ->
  snd (_sf_fetch_list clk conn sf_sql secret col)
  = match r with
    | Raises _ => Returns []
    | Returns cur =>
        match fetchdf cur with
        | Raises _ => Returns []
        | Returns df =>
            if df_empty df then Returns [] else column_values df col
        end
    end.
Proof.
  intros Hrun. unfold _sf_fetch_list, _snowflake_query, _run_query_duckdb.
  destruct (perf_counter clk) as [clk1 t0].
  rewrite (execute_eq conn (wrapper sf_sql secret) Hrun).
  destruct r as [cur | msg]; [| reflexivity].
  destruct (fetchdf cur) as [df | msg]; [| reflexivity].
  destruct (perf_counter clk1) as [clk2 t1].
  destruct (df_empty df); reflexivity.
Qed.

(** C5: [_sf_fetch_list] returns the empty list, without raising, when the
    query fails (in [execute] or in [fetchdf]) and when the frame is empty.
    On a non-empty frame with a name as selector, the first label equal to
    the name up to case (both lowered by [str.lower()], in any alphabet) is
    the label taken, and the answer is that column's values (nulls dropped,
    as text) when the label occurs once; when no label equals the name up
    to case, the first column is taken. *)
Theorem sf_fetch_list_empty_or_lookup :
  forall (clk : K) (conn : Conn E) (sf_sql secret : string) (col : ColSel)
         (e1 : E) (r : PyResult Cursor),
    engine_execute (engine conn) (wrapper sf_sql secret) = (e1, r) ->
    let out := snd (_sf_fetch_list clk conn sf_sql secret col) in
    (forall msg, r = Raises msg -> out = Returns [])
    /\ (forall cur msg,
           r = Returns cur -> fetchdf cur = Raises msg -> out = Returns [])
    /\ (forall cur df,
           r = Returns cur -> fetchdf cur = Returns df ->
           df_empty df = true -> out = Returns [])
    /\ (forall cur df name c s before after,
           r = Returns cur -> fetchdf cur = Returns df ->
           df_empty df = false ->
           col = ColName name ->
           df_columns df = List.app before ((c, s) :: after) ->
           lower c = lower name ->
           (forall p, In p before -> lower (fst p) <> lower name) ->
           out = getitem_dropna_tolist df c
           /\ ((forall p, In p (List.app before after) -> fst p <> c) ->
               out = Returns (map astype_str (dropna s))))
    /\ (forall cur df name,
           r = Returns cur -> fetchdf cur = Returns df ->
           df_empty df = false ->
           col = ColName name ->
           (forall p, In p (df_columns df) -> lower (fst p) <> lower name) ->
           exists c0 s0 rest,
             df_columns df = (c0, s0) :: rest
             /\ out = Returns (map astype_str s0)).
Proof.
  intros clk conn sf_sql secret col e1 r Hrun out.
  pose proof (sf_fetch_list_eq clk conn sf_sql secret col Hrun) as Hout.
  fold out in Hout. split; [| split; [| split; [| split]]].
  - intros msg ->. exact Hout.
  - intros cur msg -> Hfetch. rewrite Hfetch in Hout. exact Hout.
  - intros cur df -> Hfetch Hempty. rewrite Hfetch, Hempty in Hout. exact Hout.
  - intros cur df name c s before after -> Hfetch Hempty -> Hcols Hc Hfirst.
    rewrite Hfetch, Hempty in Hout. rewrite Hout. cbn [column_values].
    rewrite (@find_column_first df name c s before after Hcols Hc Hfirst).
    split; [reflexivity |]. intros Hone.
    apply (@getitem_unique df c s before after Hcols Hone).
  - intros cur df name -> Hfetch Hempty -> Hnone.
    destruct (@nonempty_has_first_column df Hempty) as (c0 & s0 & rest & Hcols).
    exists c0, s0, rest. split; [exact Hcols |].
    rewrite Hfetch, Hempty in Hout. rewrite Hout. cbn [column_values].
    rewrite (@find_column_none df name Hnone).
    apply (@iloc_col_first df c0 s0 rest Hcols).
Qed.

(** ** Disconnecting *)

(** C4: whatever the session holds and whatever the engine answers to the
    DROP SECRET and DETACH statements, the disconnect handler leaves
    [connected] false, [secret_name] empty and the connection handle
    absent (and clears the alias, the browse selections and the loaded
    flag).  With a handle present the DROP is attempted, and the DETACH
    after it exactly when an alias is set. *)
Theorem disconnect_always_resets :
  forall st : Session E T,
    let st' := fst (on_disconnect st) in
    let drop := "DROP SECRET IF EXISTS " ++ secret_name st ++ ";" in
    let detach := "DETACH " ++ attach_alias st ++ ";" in
    connected st' = false
    /\ secret_name st' = ""
    /\ duckdb_conn st' = None
    /\ attach_alias st' = ""
    /\ current_db st' = None
    /\ current_schema st' = None
    /\ current_table st' = None
    /\ extension_loaded st' = false
    /\ option_map (@issued E) (snd (on_disconnect st))
       = option_map
           (fun conn =>
              List.app (issued conn)
                (drop :: match attach_alias st with
                         | EmptyString => []
                         | String _ _ => [detach]
                         end))
           (duckdb_conn st).
Proof.
  intros st st' drop detach. subst st' drop detach. unfold on_disconnect. cbn [fst snd connected
    secret_name duckdb_conn attach_alias current_db current_schema
    current_table extension_loaded].
  repeat split.
  destruct (duckdb_conn st) as [conn |]; [| reflexivity].
  pose proof (execute_issued conn (drop_secret_sql (secret_name st))) as Hdrop.
  destruct (execute conn (drop_secret_sql (secret_name st))) as [conn1 r1].
  cbn [fst] in Hdrop.
  destruct (attach_alias st) as [| a alias] eqn:Halias; cbn [truthy].
  - cbn [option_map]. f_equal. exact Hdrop.
  - pose proof (execute_issued conn1 ("DETACH " ++ String a alias ++ ";"))
      as Hdetach.
    destruct (execute conn1 ("DETACH " ++ String a alias ++ ";")) as [conn2 r2].
    cbn [fst] in Hdetach. cbn [option_map]. f_equal.
    rewrite Hdetach, Hdrop, <- app_assoc. reflexivity.
Qed.

(** ** Query history *)

Lemma history_insert_length (e : HistoryEntry) (h : list HistoryEntry) :
  length (history_insert e h) <= 50.
Proof.
  unfold history_insert. rewrite length_firstn. lia.
Qed.

Lemma history_insert_front (e : HistoryEntry) (h : list HistoryEntry) :
  hd_error (history_insert e h) = Some e.
Proof. reflexivity. Qed.

Lemma firstn_app_firstn {A : Type} (n : nat) (a b : list A) :
  firstn n (List.app a (firstn n b)) = firstn n (List.app a b).
Proof.
  rewrite !firstn_app, firstn_firstn. f_equal. f_equal. lia.
Qed.

Lemma insert_all_firstn (es h : list HistoryEntry) :
  length h <= 50 ->
  insert_all es h = firstn 50 (List.app (rev es) h).
Proof.
  unfold insert_all. revert h. induction es as [| e es IH]; intros h Hlen.
  - cbn [fold_left rev List.app]. symmetry. apply firstn_all2. exact Hlen.
  - cbn [fold_left rev]. rewrite IH by apply history_insert_length.
    unfold history_insert. rewrite firstn_app_firstn, <- app_assoc.
    reflexivity.
Qed.

Lemma tab_query_history (st : Session E T) (clk : K) (conn : Conn E)
    (sf_query : option string) (secret : string) :
  let st' := fst (fst (tab_query st clk conn sf_query secret)) in
  query_history st' = query_history st
  \/ exists e, h_mode e = "snowflake_query"
               /\ query_history st' = history_insert e (query_history st).
Proof.
  cbv zeta. unfold tab_query.
  destruct sf_query as [q |]; [| now left].
  destruct (truthy q); [| now left].
  destruct (_snowflake_query clk conn q secret) as [[clk1 conn1] [[df elapsed] err]].
  destruct (truthy err); [now left |].
  destruct df as [df |]; [| now left].
  right. eexists. split; [| reflexivity]. reflexivity.
Qed.

Lemma tab_local_length (statements : list string) :
  forall (st : Session E T) (clk : K) (conn : Conn E) (page : W),
    length (query_history st) <= 50 ->
    length (query_history (run_session (tab_local st clk conn page statements)))
    <= 50.
Proof.
  induction statements as [| stmt rest IH]; intros st clk conn page Hlen.
  - exact Hlen.
  - cbn [tab_local].
    destruct (_run_query_duckdb clk conn stmt) as [[clk1 conn1] [[df elapsed] err]].
    destruct (truthy err); [now apply IH |].
    destruct df as [df |]; [| now apply IH].
    destruct (show_local_result page stmt df) as [page1 [[] | msg]].
    + apply IH. cbn [set_query_history query_history].
      apply history_insert_length.
    + cbn [run_session set_query_history query_history].
      apply history_insert_length.
Qed.

(** C3: the history stays within 50 entries under both tabs; a remote
    query and a local statement that succeed put their entry at the front;
    and after 51 insertions (the oldest, 49 more, the newest) the history
    holds the newest at the front, then the 49, and the oldest no more.
    The local tab inserts before it draws the result, so this holds
    whatever the page and the exports do. *)
Theorem history_bounded_newest_first :
  forall (st : Session E T) (clk : K) (conn : Conn E) (page : W)
         (sf_query : option string) (secret : string)
         (statements : list string)
         (oldest newest : HistoryEntry) (rest : list HistoryEntry),
    length (query_history st) <= 50 ->
    length rest = 49 ->
    length (query_history (fst (fst (tab_query st clk conn sf_query secret))))
      <= 50
    /\ length (query_history
                 (run_session (tab_local st clk conn page statements)))
         <= 50
    /\ (forall q e1 cur df,
           engine_execute (engine conn) (wrapper q secret) = (e1, Returns cur) ->
           fetchdf cur = Returns df ->
           truthy q = true ->
           exists e,
             h_sql e = q /\ h_mode e = "snowflake_query"
             /\ h_rows e = df_len df
             /\ query_history (fst (fst (tab_query st clk conn (Some q) secret)))
                = firstn 50 (e :: query_history st))
    /\ (forall stmt e1 cur df,
           engine_execute (engine conn) stmt = (e1, Returns cur) ->
           fetchdf cur = Returns df ->
           exists e,
             h_sql e = stmt /\ h_mode e = "duckdb_local"
             /\ h_rows e = df_len df
             /\ query_history (run_session (tab_local st clk conn page [stmt]))
                = firstn 50 (e :: query_history st))
    /\ insert_all (oldest :: List.app rest [newest]) [] = newest :: rev rest
    /\ length (insert_all (oldest :: List.app rest [newest]) []) = 50
    /\ (~ In oldest (List.app rest [newest]) ->
        ~ In oldest (insert_all (oldest :: List.app rest [newest]) [])).
Proof.
  intros st clk conn page sf_query secret statements oldest newest rest
    Hlen Hrest.
  assert (Hfinal : insert_all (oldest :: List.app rest [newest]) []
                   = newest :: rev rest).
  { rewrite insert_all_firstn by (cbn; lia).
    rewrite app_nil_r. cbn [rev]. rewrite rev_app_distr. cbn [rev List.app].
    change (newest :: List.app (rev rest) [oldest])
      with (List.app (newest :: rev rest) [oldest]).
    rewrite firstn_app, firstn_all2 by (cbn; rewrite length_rev; lia).
    cbn [length]. rewrite length_rev, Hrest, Nat.sub_diag.
    cbn [firstn]. apply app_nil_r. }
  split; [| split; [| split; [| split; [| split; [| split]]]]].
  - destruct (tab_query_history st clk conn sf_query secret) as [-> | (e & _ & ->)].
    + exact Hlen.
    + apply history_insert_length.
  - apply tab_local_length. exact Hlen.
  - intros q e1 cur df Hrun Hfetch Hq.
    unfold tab_query. rewrite Hq.
    unfold _snowflake_query, _run_query_duckdb.
    destruct (perf_counter clk) as [clk1 t0].
    rewrite (execute_eq conn (wrapper q secret) Hrun), Hfetch.
    destruct (perf_counter clk1) as [clk2 t1]. cbn [truthy].
    exists (history_entry clk2 q "snowflake_query" df (time_sub t1 t0)).
    repeat apply conj; reflexivity.
  - intros stmt e1 cur df Hrun Hfetch.
    cbn [tab_local]. unfold _run_query_duckdb.
    destruct (perf_counter clk) as [clk1 t0].
    rewrite (execute_eq conn stmt Hrun), Hfetch.
    destruct (perf_counter clk1) as [clk2 t1]. cbn [truthy].
    exists (history_entry clk2 stmt "duckdb_local" df (time_sub t1 t0)).
    destruct (show_local_result page stmt df) as [page1 [[] | msg]];
      repeat apply conj; reflexivity.
  - exact Hfinal.
  - rewrite Hfinal. cbn [length]. rewrite length_rev. lia.
  - intros Hnotin Hin. rewrite Hfinal in Hin. apply Hnotin.
    apply in_or_app. destruct Hin as [<- | Hin].
    + right. now left.
    + left. now apply in_rev.
Qed.

End Properties.

(** ** Nulls in [_sf_fetch_list] *)

Section Nulls.

Context {Low : Lowering}.

Lemma lower_name : lower "name" = "name".
Proof. now rewrite lower_ascii_text. Qed.

Lemma lower_NAME : lower "NAME" = "name".
Proof. now rewrite lower_ascii_text. Qed.

Lemma lower_created_on : lower "created_on" = "created_on".
Proof. now rewrite lower_ascii_text. Qed.

Lemma frame_with_null_by_name :
  column_values frame_with_null (ColName "name") = Returns ["DB1"; "DB2"].
Proof.
  cbn [column_values]. unfold find_column.
  change (columns frame_with_null) with ["created_on"; "NAME"].
  cbn [find]. rewrite lower_created_on, lower_NAME, lower_name.
  reflexivity.
Qed.

(** C10: nulls are dropped only when the column is found by name.  For a
    column whose label is the first to equal the name up to case (as
    [str.lower()] has it, in any alphabet) and occurs once, the name gives
    its non-null values, while its position gives all
    of them, nulls included as text, so the two lengths differ by the number
    of nulls; the fallback to the first column keeps nulls too; and on a
    frame with a null the two calls of [_sf_fetch_list] return lists of
    different lengths. *)
Theorem nulls_dropped_only_by_name :
  forall (df : DataFrame) (name c : string) (s : Series)
         (before after : list (string * Series)),
    df_columns df = List.app before ((c, s) :: after) ->
    lower c = lower name ->
    (forall p, In p before -> lower (fst p) <> lower name) ->
    (forall p, In p (List.app before after) -> fst p <> c) ->
    column_values df (ColName name)
    = Returns (map astype_str (filter (fun x => negb (isna x)) s))
    /\ column_values df (ColIndex (Z.of_nat (length before)))
       = Returns (map astype_str s)
    /\ length (map astype_str (filter (fun x => negb (isna x)) s))
       + length (filter isna s)
       = length (map astype_str s)
    /\ (forall (df' : DataFrame) (other c0 : string) (s0 : Series)
               (rest : list (string * Series)),
           df_columns df' = (c0, s0) :: rest ->
           (forall p, In p (df_columns df') -> lower (fst p) <> lower other) ->
           column_values df' (ColName other) = Returns (map astype_str s0))
    /\ (let run col :=
          snd (_sf_fetch_list 0 (fresh [Returns (cursor_of frame_with_null)])
                 "SHOW DATABASES" "sf_explorer_secret" col) in
        df_empty frame_with_null = false
        /\ run (ColName "name") = Returns ["DB1"; "DB2"]
        /\ run (ColIndex 1) = Returns ["DB1"; "None"; "DB2"]).
Proof.
  intros df name c s before after Hcols Hc Hfirst Hone.
  split; [| split; [| split; [| split]]].
  - cbn [column_values].
    rewrite (@find_column_first Low df name c s before after Hcols Hc Hfirst).
    apply (@getitem_unique df c s before after Hcols Hone).
  - cbn [column_values]. apply (@iloc_col_at df c s before after Hcols).
  - rewrite !length_map. apply dropna_length.
  - intros df' other c0 s0 rest Hcols' Hnone. cbn [column_values].
    rewrite (@find_column_none Low df' other Hnone).
    apply (@iloc_col_first df' c0 s0 rest Hcols').
  - cbv beta zeta.
    assert (Hrun : forall col,
               snd (_sf_fetch_list 0 (fresh [Returns (cursor_of frame_with_null)])
                      "SHOW DATABASES" "sf_explorer_secret" col)
               = column_values frame_with_null col) by reflexivity.
    rewrite !Hrun. split; [reflexivity |].
    split; [apply frame_with_null_by_name | reflexivity].
Qed.

End Nulls.

(** ** End-to-end examples *)

(** C6: the wrapper of ["SELECT 1"] under the secret
    ["sf_explorer_secret"] is the expected text, no quote being doubled;
    the wrapper of [SELECT 'a''b'] holds ['a''''b'] inside its quoted
    argument; and connecting with the password method and password
    ["secret"] issues a CREATE SECRET with [PASSWORD 'secret'] and no
    key-pair or OAuth clause. *)
Theorem end_to_end_examples :
  wrapper "SELECT 1" "sf_explorer_secret"
  = "SELECT * FROM snowflake_query('SELECT 1', 'sf_explorer_secret');"
  /\ escape_quotes "SELECT 1" = "SELECT 1"
  /\ wrapper "SELECT 'a''b'" "sf_explorer_secret"
     = "SELECT * FROM snowflake_query('SELECT ''a''''b''', 'sf_explorer_secret');"
  /\ contains "'a''''b'" (escape_quotes "SELECT 'a''b'") = true
  /\ (let conn :=
        fst (_create_secret
               (fresh [Returns (cursor_of empty_frame);
                       Returns (cursor_of empty_frame)])
               "sf_explorer_secret" "xy12345" "alice" "Password" "secret"
               "" "" "" "" "" "") in
      let create :=
        "CREATE SECRET sf_explorer_secret (TYPE snowflake, ACCOUNT 'xy12345', USER 'alice', PASSWORD 'secret');" in
      issued conn = ["DROP SECRET IF EXISTS sf_explorer_secret;"; create]
      /\ contains "PASSWORD 'secret'" create = true
      /\ contains "AUTH_TYPE" create = false
      /\ contains "key_pair" create = false
      /\ contains "PRIVATE_KEY" create = false
      /\ contains "oauth" create = false
      /\ contains "TOKEN" create = false).
Proof.
  cbv zeta. repeat split; vm_compute; reflexivity.
Qed.

(** ** The theorems at concrete inputs *)

(** The drop raises (no such secret), the create returns: the result is
    success. *)
Lemma create_secret_drop_ignored_witness :
  _create_secret
    (fresh [Raises "Invalid Input Error: secret not found";
            Returns (cursor_of empty_frame)])
    "sf_explorer_secret" "xy12345" "alice" "Password" "secret"
    "" "" "" "" "" ""
  = ({| engine := [];
        issued :=
          [ "DROP SECRET IF EXISTS sf_explorer_secret;";
            "CREATE SECRET sf_explorer_secret (TYPE snowflake, ACCOUNT 'xy12345', USER 'alice', PASSWORD 'secret');" ] |},
     (true, "Secret created")).
Proof.
  exact (@create_secret_drop_ignored Script script_engine
           (fresh [Raises "Invalid Input Error: secret not found";
                   Returns (cursor_of empty_frame)])
           "sf_explorer_secret" "xy12345" "alice" "Password" "secret"
           "" "" "" "" "" ""
           [Returns (cursor_of empty_frame)] []
           (Raises "Invalid Input Error: secret not found")
           (Returns (cursor_of empty_frame))
           eq_refl eq_refl).
Defined.

Lemma wrapper_escapes_and_ends_with_secret_witness :
  escape_quotes "it's" = "it''s"
  /\ (escape_quotes "it's" = escape_quotes "it's" -> "it's" = "it's").
Proof.
  pose proof (wrapper_escapes_and_ends_with_secret "it's" "sf_explorer_secret")
    as (_ & Hdoubled & _ & Hinj).
  split.
  - exact (Hdoubled "it" "s" eq_refl).
  - exact (Hinj "it's").
Defined.

(** A statement the engine rejects: no result, zero elapsed, the engine's
    text. *)
Lemma run_query_duckdb_result_witness :
  _run_query_duckdb 0 (fresh [Raises "Parser Error: syntax error"]) "SELEC 1"
  = (1, {| engine := []; issued := ["SELEC 1"] |},
     (None, 0, "Parser Error: syntax error")).
Proof.
  exact (proj1 (@run_query_duckdb_result Script script_engine nat nat tick_clock
                  0 1 0 (fresh [Raises "Parser Error: syntax error"]) "SELEC 1"
                  [] (Raises "Parser Error: syntax error") eq_refl eq_refl)).
Defined.

(** INSTALL raises, LOAD returns, the version cannot be fetched: success
    with ["unknown"], and the flag is set. *)
Lemma ensure_extension_idempotent_witness :
  let conn :=
    fresh [Raises "IO Error: extension already installed";
           Returns (cursor_of empty_frame);
           Raises "Catalog Error: snowflake_version does not exist"] in
  let st : Session Script nat := _DEFAULTS in
  _ensure_extension st conn
  = (set_extension_loaded st true,
     {| engine := [];
        issued := [ "INSTALL snowflake FROM community;"; "LOAD snowflake;";
                    "SELECT snowflake_version();" ] |},
     (true, "unknown")).
Proof.
  exact (proj1 (@ensure_extension_idempotent Script script_engine nat
                  _DEFAULTS
                  (fresh [Raises "IO Error: extension already installed";
                          Returns (cursor_of empty_frame);
                          Raises "Catalog Error: snowflake_version does not exist"])
                  [Returns (cursor_of empty_frame);
                   Raises "Catalog Error: snowflake_version does not exist"]
                  [Raises "Catalog Error: snowflake_version does not exist"]
                  []
                  (Raises "IO Error: extension already installed")
                  (Returns (cursor_of empty_frame))
                  (Raises "Catalog Error: snowflake_version does not exist")
                  eq_refl eq_refl eq_refl)).
Defined.

Lemma created_on_is_not_name :
  forall p : string * Series,
    In p [ ("created_on", [ValueCell "2024-01-01"; ValueCell "2024-01-02";
                           ValueCell "2024-01-03"]) ] ->
    lower (Lowering := ascii_lowering) (fst p)
    <> lower (Lowering := ascii_lowering) "name"
    /\ fst p <> "NAME".
Proof.
  intros p [<- | []]. split; discriminate.
Defined.

Lemma created_on_is_not_name_app :
  forall p : string * Series,
    In p (List.app
            [ ("created_on", [ValueCell "2024-01-01"; ValueCell "2024-01-02";
                              ValueCell "2024-01-03"]) ] []) ->
    fst p <> "NAME".
Proof.
  intros p Hp. apply created_on_is_not_name. exact Hp.
Defined.

(** The name ["name"] finds the column labelled ["NAME"]. *)
Lemma sf_fetch_list_empty_or_lookup_witness :
  snd (_sf_fetch_list (Low := ascii_lowering)
         0 (fresh [Returns (cursor_of frame_with_null)])
         "SHOW DATABASES" "sf_explorer_secret" (ColName "name"))
  = Returns ["DB1"; "DB2"].
Proof.
  pose proof (@sf_fetch_list_empty_or_lookup Script script_engine nat nat
                tick_clock ascii_lowering
                0 (fresh [Returns (cursor_of frame_with_null)])
                "SHOW DATABASES" "sf_explorer_secret" (ColName "name")
                [] (Returns (cursor_of frame_with_null)) eq_refl)
    as (_ & _ & _ & Hlookup & _).
  pose proof (Hlookup (cursor_of frame_with_null) frame_with_null "name" "NAME"
           [ValueCell "DB1"; NoneCell; ValueCell "DB2"]
           [ ("created_on", [ValueCell "2024-01-01"; ValueCell "2024-01-02";
                             ValueCell "2024-01-03"]) ]
           [] eq_refl eq_refl eq_refl eq_refl eq_refl eq_refl
           (fun p Hp => proj1 (@created_on_is_not_name p Hp)))
    as (_ & Hvalues).
  exact (Hvalues created_on_is_not_name_app).
Defined.

Lemma nulls_dropped_only_by_name_witness :
  column_values (Low := ascii_lowering) frame_with_null (ColName "name")
  = Returns ["DB1"; "DB2"]
  /\ column_values (Low := ascii_lowering) frame_with_null (ColIndex 1)
     = Returns ["DB1"; "None"; "DB2"].
Proof.
  pose proof (@nulls_dropped_only_by_name ascii_lowering
                frame_with_null "name" "NAME"
                [ValueCell "DB1"; NoneCell; ValueCell "DB2"]
                [ ("created_on", [ValueCell "2024-01-01"; ValueCell "2024-01-02";
                                  ValueCell "2024-01-03"]) ]
                [] eq_refl eq_refl
                (fun p Hp => proj1 (@created_on_is_not_name p Hp))
                created_on_is_not_name_app)
    as (Hname & Hindex & _).
  split; [exact Hname | exact Hindex].
Defined.

(** Fifty-one insertions, numbered 0 to 50: the history is 50, 49, ..., 1. *)
Lemma history_bounded_newest_first_witness :
  insert_all (map numbered_entry (seq 0 51)) []
  = map numbered_entry (rev (seq 1 50))
  /\ ~ In (numbered_entry 0) (insert_all (map numbered_entry (seq 0 51)) []).
Proof.
  pose proof (@history_bounded_newest_first Script script_engine nat nat
                tick_clock Registry key_registry header_export
                (connected_session (fresh [])) 0 (fresh []) []
                None "sf_explorer_secret" []
                (numbered_entry 0) (numbered_entry 50)
                (map numbered_entry (seq 1 49))
                (Nat.le_0_l 50) eq_refl)
    as (_ & _ & _ & _ & Hfinal & _ & Habsent).
  split.
  - exact Hfinal.
  - apply Habsent. intros Hin. apply in_app_or in Hin.
    destruct Hin as [Hin | [Hin | []]]; [| discriminate Hin].
    apply in_map_iff in Hin. destruct Hin as (n & Hn & Hseq).
    injection Hn as ->. apply in_seq in Hseq. lia.
Defined.

(** ** Where the error text is empty *)

(** [fetchdf] raises an exception whose text is empty (a bare
    [MemoryError], say): [_run_query_duckdb] and [_snowflake_query] return
    no result and zero elapsed, and the error text is the empty string; so
    a failed execution does not always come with a non-empty error text. *)
Lemma run_query_error_text_may_be_empty :
  snd (_run_query_duckdb 0 (fresh [Returns (cursor_raising "")])
         "SELECT * FROM range(10000000000)")
  = (None, 0, "")
  /\ snd (_snowflake_query 0 (fresh [Returns (cursor_raising "")])
            "SELECT * FROM BIG_TABLE" "sf_explorer_secret")
     = (None, 0, "")
  /\ snd (_run_query_duckdb 0 (fresh [Raises ""]) "SELECT 1") = (None, 0, "")
  /\ ~ (forall (conn : Conn Script) (sql : string) (df : option DataFrame)
               (elapsed : nat) (err : string),
          snd (_run_query_duckdb 0 conn sql) = (df, elapsed, err) ->
          df = None -> err <> "").
Proof.
  split; [reflexivity |]. split; [reflexivity |]. split; [reflexivity |].
  intros Hnonempty.
  apply (Hnonempty (fresh [Raises ""]) "SELECT 1" None 0 "" eq_refl eq_refl).
  reflexivity.
Qed.

(** * Further properties of the helpers *)

Section MoreProperties.

Context {E : Type} `{Eng : Engine E}.
Context {K T : Type} `{Clk : Clock K T}.
Context {Low : Lowering}.
Context {W : Type} `{Wid : Widgets W}.
Context {Exp : Export}.
Variable memory_db : E.
Variable item_text : list (string * Cell) -> string -> string.

(** ** More on [_create_secret] *)

(** X1: with an authentication method other than the three of the
    selectbox, [_create_secret] still issues its DROP and CREATE, and the
    CREATE has no credential clause at all: only the three fixed clauses
    and the optional ones. *)
Theorem create_secret_unknown_method :
  forall (conn : Conn E)
         (name account user auth_method password warehouse database role
          oauth_token private_key_pem private_key_passphrase : string),
    auth_method <> "Password" ->
    auth_method <> "Key Pair" ->
    auth_method <> "OAuth Token" ->
    let parts :=
      secret_parts account user auth_method password warehouse database role
        oauth_token private_key_pem private_key_passphrase in
    parts
    = List.app
        [ "TYPE snowflake"; "ACCOUNT '" ++ account ++ "'";
          "USER '" ++ user ++ "'" ]
        (List.app (spec_optional_clause "DATABASE" database)
           (List.app (spec_optional_clause "WAREHOUSE" warehouse)
              (spec_optional_clause "ROLE" role)))
    /\ has_clause "PASSWORD" parts = false
    /\ has_clause "AUTH_TYPE" parts = false
    /\ has_clause "PRIVATE_KEY" parts = false
    /\ has_clause "TOKEN" parts = false
    /\ issued (fst (_create_secret conn name account user auth_method password
                      warehouse database role oauth_token private_key_pem
                      private_key_passphrase))
       = List.app (issued conn)
           [ "DROP SECRET IF EXISTS " ++ name ++ ";";
             "CREATE SECRET " ++ name ++ " (" ++ String.concat ", " parts ++ ");" ].
Proof.
  intros conn name account user auth_method password warehouse database role
    oauth_token private_key_pem private_key_passphrase Hp Hk Ho parts.
  assert (Hparts : parts
                   = List.app
                       [ "TYPE snowflake"; "ACCOUNT '" ++ account ++ "'";
                         "USER '" ++ user ++ "'" ]
                       (List.app (spec_optional_clause "DATABASE" database)
                          (List.app (spec_optional_clause "WAREHOUSE" warehouse)
                             (spec_optional_clause "ROLE" role)))).
  { subst parts. unfold secret_parts.
    apply String.eqb_neq in Hp, Hk, Ho. rewrite Hp, Hk, Ho.
    destruct database, warehouse, role; reflexivity. }
  split; [exact Hparts |].
  split; [| split; [| split; [| split]]].
  1-4: rewrite Hparts; destruct database, warehouse, role; reflexivity.
  apply create_secret_issued.
Qed.

(** X2: the fields are put between quotes as they are, so the statement
    does not determine them: a password that continues with a quote and a
    ROLE clause gives the very statements that the shorter password and
    that role give. *)
Theorem create_secret_fields_not_escaped :
  forall (conn : Conn E)
         (name account user password role oauth_token private_key_pem
          private_key_passphrase : string),
    truthy role = true ->
    issued (fst (_create_secret conn name account user "Password"
                   (password ++ "', ROLE '" ++ role) "" "" ""
                   oauth_token private_key_pem private_key_passphrase))
    = issued (fst (_create_secret conn name account user "Password"
                     password "" "" role
                     oauth_token private_key_pem private_key_passphrase)).
Proof.
  intros conn name account user password role oauth_token private_key_pem
    private_key_passphrase Hrole.
  rewrite !create_secret_issued. do 3 f_equal.
  destruct role as [| c role]; [discriminate |].
  unfold create_secret_sql. do 2 f_equal.
  cbn. do 4 f_equal.
  rewrite !string_app_assoc. reflexivity.
Qed.

(** ** The wrapper, read back *)

Lemma escape_quotes_without_quote (s : string) :
  count_char quote s = 0 -> escape_quotes s = s.
Proof.
  induction s as [| c s IH]; [reflexivity |].
  cbn [count_char]. destruct (Ascii.eqb_spec c quote) as [-> | Hc].
  - discriminate.
  - intros Hcount. rewrite escape_quotes_other by assumption.
    now rewrite IH.
Qed.

Lemma read_quoted_escape (s tail : string) :
  (forall c t, tail = String c t -> c <> quote) ->
  read_quoted (escape_quotes s ++ String quote tail) = Some (s, tail).
Proof.
  intros Htail. induction s as [| c s IH].
  - cbn. destruct tail as [| d t]; [reflexivity |].
    destruct (Ascii.eqb_spec d quote) as [Hd | _]; [| reflexivity].
    exfalso. exact (Htail d t eq_refl Hd).
  - destruct (Ascii.eqb_spec c quote) as [-> | Hc].
    + rewrite escape_quotes_quote.
      change (read_quoted
                (String quote (String quote (escape_quotes s ++ String quote tail)))
              = Some (String quote s, tail)).
      cbn [read_quoted]. rewrite Ascii.eqb_refl, IH. reflexivity.
    + rewrite escape_quotes_other by assumption.
      change (read_quoted (String c (escape_quotes s ++ String quote tail))
              = Some (String c s, tail)).
      cbn [read_quoted].
      destruct (Ascii.eqb_spec c quote) as [Heq | _]; [contradiction |].
      rewrite IH. reflexivity.
Qed.

(** X3: read the way SQL reads a quoted literal, the first argument of the
    wrapper is the SQL that was given, whatever quotes it holds and whatever
    the secret name is, and what follows it is the comma and the second
    argument; a secret name without a quote is read back as itself too. *)
Theorem wrapper_arguments_read_back :
  forall sf_sql secret : string,
    exists after_open : string,
      wrapper sf_sql secret = "SELECT * FROM snowflake_query('" ++ after_open
      /\ read_quoted after_open = Some (sf_sql, ", '" ++ secret ++ "');")
      /\ (count_char quote secret = 0 ->
          read_quoted (secret ++ "');") = Some (secret, ");")).
Proof.
  intros sf_sql secret.
  exists (escape_quotes sf_sql ++ "', '" ++ secret ++ "');").
  split; [reflexivity |]. split.
  - apply (read_quoted_escape sf_sql). intros c t Heq.
    injection Heq as <- _. discriminate.
  - intros Hsecret.
    rewrite <- (escape_quotes_without_quote secret Hsecret) at 1.
    apply (read_quoted_escape secret). intros c t Heq.
    injection Heq as <- _. discriminate.
Qed.

(** ** Statements issued by the dispatcher *)

Lemma run_query_issued (clk : K) (conn : Conn E) (sql : string) :
  issued (snd (fst (_run_query_duckdb clk conn sql)))
  = List.app (issued conn) [sql].
Proof.
  unfold _run_query_duckdb. destruct (perf_counter clk) as [clk1 t0].
  pose proof (execute_issued conn sql) as Hissued.
  destruct (execute conn sql) as [conn1 [result | msg]]; cbn [fst] in Hissued;
    [| exact Hissued].
  destruct (fetchdf result) as [df | msg]; [| exact Hissued].
  destruct (perf_counter clk1) as [clk2 t1]. exact Hissued.
Qed.

(** X4: a call of [_sf_fetch_list] issues exactly one statement, the
    wrapper of its SQL, whether the query succeeds, fails or comes back
    empty, and whatever the selector. *)
Theorem sf_fetch_list_one_statement :
  forall (clk : K) (conn : Conn E) (sf_sql secret : string) (col : ColSel),
    issued (snd (fst (_sf_fetch_list clk conn sf_sql secret col)))
    = List.app (issued conn)
        [ "SELECT * FROM snowflake_query('" ++ escape_quotes sf_sql
          ++ "', '" ++ secret ++ "');" ].
Proof.
  intros clk conn sf_sql secret col.
  pose proof (run_query_issued clk conn (wrapper sf_sql secret)) as Hissued.
  unfold _sf_fetch_list, _snowflake_query.
  destruct (_run_query_duckdb clk conn (wrapper sf_sql secret))
    as [[clk1 conn1] [[df elapsed] err]].
  cbn [fst snd] in Hissued.
  destruct df as [df |]; [| exact Hissued].
  destruct (df_empty df); exact Hissued.
Qed.

(** X5: with a position as selector on a non-empty result, a position
    from 0 up to the number of columns gives that column and a negative one
    down to minus that number counts from the last column, nulls kept as
    text in both; any other position makes [_sf_fetch_list] raise instead of
    returning a list. *)
Theorem sf_fetch_list_by_position :
  forall (clk : K) (conn : Conn E) (sf_sql secret : string) (i : Z)
         (e1 : E) (cur : Cursor) (df : DataFrame),
    engine_execute (engine conn) (wrapper sf_sql secret) = (e1, Returns cur) ->
    fetchdf cur = Returns df ->
    df_empty df = false ->
    let n := Z.of_nat (length (df_columns df)) in
    let out := snd (_sf_fetch_list clk conn sf_sql secret (ColIndex i)) in
    let column k := snd (nth k (df_columns df) (EmptyString, [])) in
    ((0 <= i < n)%Z -> out = Returns (map astype_str (column (Z.to_nat i))))
    /\ ((- n <= i < 0)%Z ->
        out = Returns (map astype_str (column (Z.to_nat (n + i)))))
    /\ ((i < - n \/ n <= i)%Z -> exists msg, out = Raises msg).
Proof.
  intros clk conn sf_sql secret i e1 cur df Hrun Hfetch Hempty n out column.
  assert (Hout : out = iloc_col_tolist df i).
  { subst out. rewrite (sf_fetch_list_eq clk conn sf_sql secret (ColIndex i) Hrun).
    rewrite Hfetch, Hempty. reflexivity. }
  assert (Hnth : forall k, (k < length (df_columns df))%nat ->
                 match nth_error (df_columns df) k with
                 | Some (_, s) => Returns (astype_str_tolist s)
                 | None =>
                     Raises "IndexError: single positional indexer is out-of-bounds"
                 end = Returns (map astype_str (column k))).
  { intros k Hk. subst column. cbv beta.
    rewrite (nth_error_nth' (df_columns df) (EmptyString, []) Hk).
    destruct (nth k (df_columns df) (EmptyString, [])) as [c s]. reflexivity. }
  rewrite Hout. unfold iloc_col_tolist. fold n.
  split; [| split].
  - intros Hi. destruct (Z.ltb_spec i 0) as [Hneg | _]; [lia |].
    destruct (Z.leb_spec 0 i) as [_ | Hneg]; [| lia].
    destruct (Z.ltb_spec i n) as [_ | Hge]; [| lia].
    cbn [andb]. apply Hnth. subst n. lia.
  - intros Hi. destruct (Z.ltb_spec i 0) as [_ | Hpos]; [| lia].
    destruct (Z.leb_spec 0 (n + i)) as [_ | Hneg]; [| lia].
    destruct (Z.ltb_spec (n + i) n) as [_ | Hge]; [| lia].
    cbn [andb]. apply Hnth. subst n. lia.
  - intros Hi. destruct (Z.ltb_spec i 0) as [Hneg | Hpos].
    + destruct (Z.leb_spec 0 (n + i)) as [Hok | _]; [lia |].
      cbn [andb]. eexists. reflexivity.
    + destruct (Z.leb_spec 0 i) as [_ | Hneg]; [| lia].
      destruct (Z.ltb_spec i n) as [Hlt | _]; [lia |].
      cbn [andb]. eexists. reflexivity.
Qed.

(** ** The local tab *)

Lemma tab_local_issued_prefix :
  forall (statements : list string) (st : Session E T) (clk : K)
         (conn : Conn E) (page : W),
    exists n : nat,
      n <= length statements
      /\ issued (run_conn (tab_local st clk conn page statements))
         = List.app (issued conn) (firstn n statements).
Proof.
  induction statements as [| stmt rest IH]; intros st clk conn page.
  - exists 0. split; [apply le_n |].
    cbn [tab_local run_conn firstn]. now rewrite app_nil_r.
  - cbn [tab_local].
    pose proof (run_query_issued clk conn stmt) as Hissued.
    destruct (_run_query_duckdb clk conn stmt)
      as [[clk1 conn1] [[df elapsed] err]].
    cbn [fst snd] in Hissued.
    assert (Hrest : forall st' page',
               exists n : nat,
                 n <= length (stmt :: rest)
                 /\ issued (run_conn (tab_local st' clk1 conn1 page' rest))
                    = List.app (issued conn) (firstn n (stmt :: rest))).
    { intros st' page'. destruct (IH st' clk1 conn1 page') as (n & Hn & Heq).
      exists (S n). split; [cbn [length]; lia |].
      rewrite Heq, Hissued. cbn [firstn]. rewrite <- app_assoc. reflexivity. }
    destruct (truthy err); [apply Hrest |].
    destruct df as [df |]; [| apply Hrest].
    destruct (show_local_result page stmt df) as [page1 [[] | msg]];
      [apply Hrest |].
    exists 1. split; [cbn [length]; lia |].
    cbn [run_conn firstn]. exact Hissued.
Qed.

Lemma tab_local_issued_all :
  forall (statements : list string) (st : Session E T) (clk : K)
         (conn : Conn E) (page : W),
    run_raised (tab_local st clk conn page statements) = None ->
    issued (run_conn (tab_local st clk conn page statements))
    = List.app (issued conn) statements.
Proof.
  induction statements as [| stmt rest IH]; intros st clk conn page.
  - intros _. cbn [tab_local run_conn]. now rewrite app_nil_r.
  - cbn [tab_local].
    pose proof (run_query_issued clk conn stmt) as Hissued.
    destruct (_run_query_duckdb clk conn stmt)
      as [[clk1 conn1] [[df elapsed] err]].
    cbn [fst snd] in Hissued.
    assert (Hrest : forall st' page',
               run_raised (tab_local st' clk1 conn1 page' rest) = None ->
               issued (run_conn (tab_local st' clk1 conn1 page' rest))
               = List.app (issued conn) (stmt :: rest)).
    { intros st' page' Hnone. rewrite (IH st' clk1 conn1 page' Hnone), Hissued.
      rewrite <- app_assoc. reflexivity. }
    destruct (truthy err); [apply Hrest |].
    destruct df as [df |]; [| apply Hrest].
    destruct (show_local_result page stmt df) as [page1 [[] | msg]];
      [apply Hrest |].
    cbn [run_raised]. discriminate.
Qed.

(** X6: the local tab passes the statements of its list to the engine in
    order, each at most once: beginning with the first and without a gap,
    all of them when the drawing of no result raised.  A statement the
    engine rejects does not stop the ones after it and leaves the session
    as it was, and neither does a statement whose result is empty, which
    is recorded in the history. *)
Theorem tab_local_issues_all :
  forall (statements : list string) (st : Session E T) (clk : K)
         (conn : Conn E) (page : W),
    let run := tab_local st clk conn page statements in
    (exists n : nat,
        n <= length statements
        /\ issued (run_conn run) = List.app (issued conn) (firstn n statements))
    /\ (run_raised run = None ->
        issued (run_conn run) = List.app (issued conn) statements)
    /\ (forall stmt rest e1 r,
           statements = stmt :: rest ->
           engine_execute (engine conn) stmt = (e1, r) ->
           rejected r ->
           exists (clk1 : K) (conn1 : Conn E),
             issued conn1 = List.app (issued conn) [stmt]
             /\ run = tab_local st clk1 conn1 page rest)
    /\ (forall stmt rest e1 cur df,
           statements = stmt :: rest ->
           engine_execute (engine conn) stmt = (e1, Returns cur) ->
           fetchdf cur = Returns df ->
           df_empty df = true ->
           exists (clk1 : K) (conn1 : Conn E) (e : HistoryEntry),
             issued conn1 = List.app (issued conn) [stmt]
             /\ h_sql e = stmt
             /\ run = tab_local
                        (set_query_history st
                           (history_insert e (query_history st)))
                        clk1 conn1 page rest).
Proof.
  intros statements st clk conn page run. subst run.
  split; [apply tab_local_issued_prefix |].
  split; [apply tab_local_issued_all |]. split.
  - intros stmt rest e1 r -> Hrun Hrejected.
    cbn [tab_local]. unfold _run_query_duckdb.
    destruct (perf_counter clk) as [clk1 t0].
    rewrite (execute_eq conn stmt Hrun).
    destruct r as [cur | msg].
    + destruct Hrejected as (msg & Hfetch). rewrite Hfetch.
      exists clk1, (mkConn e1 (List.app (issued conn) [stmt])).
      split; [reflexivity |]. destruct (truthy msg); reflexivity.
    + exists clk1, (mkConn e1 (List.app (issued conn) [stmt])).
      split; [reflexivity |]. destruct (truthy msg); reflexivity.
  - intros stmt rest e1 cur df -> Hrun Hfetch Hempty.
    cbn [tab_local]. unfold _run_query_duckdb.
    destruct (perf_counter clk) as [clk1 t0].
    rewrite (execute_eq conn stmt Hrun), Hfetch.
    destruct (perf_counter clk1) as [clk2 t1]. cbn [truthy].
    unfold show_local_result. rewrite Hempty. cbn [negb].
    exists clk2, (mkConn e1 (List.app (issued conn) [stmt])),
      (history_entry clk2 stmt "duckdb_local" df (time_sub t1 t0)).
    split; [reflexivity |]. split; reflexivity.
Qed.

Lemma set_query_history_same (st : Session E T) :
  set_query_history st (query_history st) = st.
Proof. destruct st. reflexivity. Qed.

Lemma set_query_history_twice (st : Session E T) (h1 h2 : list HistoryEntry) :
  set_query_history (set_query_history st h1) h2 = set_query_history st h2.
Proof. reflexivity. Qed.

(** X7: the local tab changes nothing of the session but the history (the
    last result, query, time and row count of the remote tab stay), and
    what it adds to the history are entries of mode [duckdb_local] for
    statements of its list, at most one per statement. *)
Theorem tab_local_changes_history_only :
  forall (statements : list string) (st : Session E T) (clk : K)
         (conn : Conn E) (page : W),
    let st' := run_session (tab_local st clk conn page statements) in
    st' = set_query_history st (query_history st')
    /\ exists entries : list HistoryEntry,
         query_history st' = insert_all entries (query_history st)
         /\ length entries <= length statements
         /\ Forall (fun e => h_mode e = "duckdb_local"
                             /\ In (h_sql e) statements) entries.
Proof.
  induction statements as [| stmt rest IH]; intros st clk conn page; cbv zeta.
  - cbn [tab_local run_session].
    split; [symmetry; apply set_query_history_same |].
    exists []. split; [reflexivity | split; [apply le_n | constructor]].
  - cbn [tab_local].
    destruct (_run_query_duckdb clk conn stmt)
      as [[clk1 conn1] [[df elapsed] err]].
    assert (Hskip : let st' := run_session (tab_local st clk1 conn1 page rest) in
                    st' = set_query_history st (query_history st')
                    /\ exists entries : list HistoryEntry,
                         query_history st' = insert_all entries (query_history st)
                         /\ length entries <= length (stmt :: rest)
                         /\ Forall (fun e => h_mode e = "duckdb_local"
                                             /\ In (h_sql e) (stmt :: rest))
                                   entries).
    { destruct (IH st clk1 conn1 page) as (Hst & entries & Hh & Hlen & Hall).
      split; [exact Hst |]. exists entries.
      split; [exact Hh |]. split; [cbn [length]; lia |].
      eapply Forall_impl; [| exact Hall].
      intros e [Hmode Hin]. split; [exact Hmode | now right]. }
    destruct (truthy err); [exact Hskip |].
    destruct df as [df |]; [| exact Hskip].
    set (e := history_entry clk1 stmt "duckdb_local" df elapsed).
    destruct (show_local_result page stmt df) as [page1 [[] | msg]].
    + destruct (IH (set_query_history st (history_insert e (query_history st)))
                  clk1 conn1 page1) as (Hst & entries & Hh & Hlen & Hall).
      split.
      * rewrite Hst at 1. apply set_query_history_twice.
      * exists (e :: entries). split; [exact Hh |].
        split; [cbn [length]; lia |].
        constructor.
        -- split; [reflexivity | now left].
        -- eapply Forall_impl; [| exact Hall].
           intros e' [Hmode Hin]. split; [exact Hmode | now right].
    + cbn [run_session]. split; [reflexivity |].
      exists [e]. split; [reflexivity |].
      split; [cbn [length]; lia |].
      constructor; [| constructor]. split; [reflexivity | now left].
Qed.

(** ** The remote tab *)

(** X8: when the remote query fails, in [execute] or in [fetchdf], the
    remote tab leaves the whole session as it was, the previous result
    included; when it succeeds, the last result, query, elapsed time and row
    count are those of this run, and the entry put at the front of the
    history carries the same SQL and row count. *)
Theorem tab_query_result_or_unchanged :
  forall (st : Session E T) (clk : K) (conn : Conn E) (q secret : string)
         (e1 : E) (r : PyResult Cursor),
    engine_execute (engine conn) (wrapper q secret) = (e1, r) ->
    truthy q = true ->
    let st' := fst (fst (tab_query st clk conn (Some q) secret)) in
    (forall msg, r = Raises msg -> st' = st)
    /\ (forall cur msg, r = Returns cur -> fetchdf cur = Raises msg -> st' = st)
    /\ (forall cur df,
           r = Returns cur -> fetchdf cur = Returns df ->
           last_result st' = Some df
           /\ last_query st' = q
           /\ last_row_count st' = df_len df
           /\ exists e older,
                query_history st' = e :: older
                /\ h_sql e = q /\ h_rows e = df_len df
                /\ h_time e = format_2f_s (last_elapsed st')).
Proof.
  intros st clk conn q secret e1 r Hrun Hq st'. subst st'.
  unfold tab_query. rewrite Hq.
  unfold _snowflake_query, _run_query_duckdb.
  destruct (perf_counter clk) as [clk1 t0].
  rewrite (execute_eq conn (wrapper q secret) Hrun).
  split; [| split].
  - intros msg ->. destruct (truthy msg); reflexivity.
  - intros cur msg -> Hfetch. rewrite Hfetch. destruct (truthy msg); reflexivity.
  - intros cur df -> Hfetch. rewrite Hfetch.
    destruct (perf_counter clk1) as [clk2 t1]. cbn [truthy fst].
    repeat split.
    exists (history_entry clk2 q "snowflake_query" df (time_sub t1 t0)).
    exists (firstn 49 (query_history st)). repeat split.
Qed.

(** ** The history *)

(** X9: after any number of insertions into a history within the cap, the
    history is the 50 most recent entries, newest first: the insertions in
    reverse order, then the earlier history, cut at 50. *)
Theorem history_is_most_recent_fifty :
  forall es h : list HistoryEntry,
    length h <= 50 ->
    insert_all es h = firstn 50 (List.app (rev es) h)
    /\ length (insert_all es h) = Nat.min 50 (length es + length h).
Proof.
  intros es h Hlen.
  rewrite (@insert_all_firstn es h Hlen). split; [reflexivity |].
  rewrite length_firstn, length_app, length_rev. reflexivity.
Qed.

(** X10: the re-run button of the history sends an entry back to the tab
    that recorded it, with the SQL that was run: the entry of a successful
    remote query goes to the remote editor, that of a successful local
    statement to the local one, whatever the drawing of its result does. *)
Theorem rerun_returns_to_recording_tab :
  forall (st : Session E T) (clk : K) (conn : Conn E) (page : W),
    (forall (q secret : string) (e1 : E) (cur : Cursor) (df : DataFrame),
        truthy q = true ->
        engine_execute (engine conn) (wrapper q secret) = (e1, Returns cur) ->
        fetchdf cur = Returns df ->
        exists e older,
          query_history (fst (fst (tab_query st clk conn (Some q) secret)))
          = e :: older
          /\ rerun_target e = "sf_sql_input" /\ h_sql e = q)
    /\ (forall (stmt : string) (e1 : E) (cur : Cursor) (df : DataFrame),
           engine_execute (engine conn) stmt = (e1, Returns cur) ->
           fetchdf cur = Returns df ->
           exists e older,
             query_history (run_session (tab_local st clk conn page [stmt]))
             = e :: older
             /\ rerun_target e = "local_sql_input" /\ h_sql e = stmt).
Proof.
  intros st clk conn page. split.
  - intros q secret e1 cur df Hq Hrun Hfetch.
    unfold tab_query. rewrite Hq.
    unfold _snowflake_query, _run_query_duckdb.
    destruct (perf_counter clk) as [clk1 t0].
    rewrite (execute_eq conn (wrapper q secret) Hrun), Hfetch.
    destruct (perf_counter clk1) as [clk2 t1]. cbn [truthy fst].
    exists (history_entry clk2 q "snowflake_query" df (time_sub t1 t0)).
    exists (firstn 49 (query_history st)). repeat split.
  - intros stmt e1 cur df Hrun Hfetch.
    cbn [tab_local]. unfold _run_query_duckdb.
    destruct (perf_counter clk) as [clk1 t0].
    rewrite (execute_eq conn stmt Hrun), Hfetch.
    destruct (perf_counter clk1) as [clk2 t1]. cbn [truthy].
    exists (history_entry clk2 stmt "duckdb_local" df (time_sub t1 t0)).
    exists (firstn 49 (query_history st)).
    destruct (show_local_result page stmt df) as [page1 [[] | msg]];
      repeat split.
Qed.

(** ** The cached handle *)

(** X11: [_get_duckdb] opens a handle only when the session has none: the
    handle it returns is the one the session then holds, a second call
    returns the same handle and changes nothing, and a handle already there
    is returned as it is.  After a disconnect the next call opens a new
    in-memory database, with nothing issued on it yet. *)
Theorem get_duckdb_cached :
  forall st : Session E T,
    let st1 := fst (_get_duckdb memory_db st) in
    let c1 := snd (_get_duckdb memory_db st) in
    duckdb_conn st1 = Some c1
    /\ _get_duckdb memory_db st1 = (st1, c1)
    /\ (forall c, duckdb_conn st = Some c -> st1 = st /\ c1 = c)
    /\ snd (_get_duckdb memory_db (fst (on_disconnect st)))
       = {| engine := memory_db; issued := [] |}.
Proof.
  intros st st1 c1. subst st1 c1.
  split; [| split; [| split]].
  - unfold _get_duckdb. destruct (duckdb_conn st) as [c |] eqn:Hconn.
    + exact Hconn.
    + reflexivity.
  - unfold _get_duckdb. destruct (duckdb_conn st) as [c |] eqn:Hconn.
    + cbn [fst snd]. rewrite Hconn. reflexivity.
    + reflexivity.
  - intros c Hconn. unfold _get_duckdb. rewrite Hconn. now split.
  - reflexivity.
Qed.

(** ** The connection test *)

Lemma row_item_present (row : list (string * Cell)) (label : string) :
  existsb (fun p => String.eqb (fst p) label) row = true ->
  row_item item_text row label = Returns (item_text row label).
Proof.
  intros Hin. unfold row_item. rewrite Hin. reflexivity.
Qed.

Lemma row_item_absent (row : list (string * Cell)) (label : string) :
  existsb (fun p => String.eqb (fst p) label) row = false ->
  row_item item_text row label = Raises ("'" ++ label ++ "'").
Proof.
  intros Hin. unfold row_item. rewrite Hin. reflexivity.
Qed.

Lemma row_has_label (df : DataFrame) (label : string) :
  existsb (fun p => String.eqb (fst p) label)
    (map (fun p : string * Series => (fst p, hd NaNCell (snd p))) (df_columns df))
  = true
  <-> In label (columns df).
Proof.
  unfold columns. induction (df_columns df) as [| [c s] cols IH]; cbn.
  - split; [discriminate | contradiction].
  - destruct (String.eqb_spec c label) as [-> | Hne]; cbn.
    + split; [now left | reflexivity].
    + rewrite IH. split; [now right |]. intros [Heq | Hin]; [contradiction | exact Hin].
Qed.

Lemma test_connection_issued (conn : Conn E) (secret : string) :
  issued (fst (_test_connection_via_duckdb item_text conn secret))
  = List.app (issued conn) [test_connection_sql secret].
Proof.
  unfold _test_connection_via_duckdb.
  pose proof (execute_issued conn (test_connection_sql secret)) as Hissued.
  destruct (execute conn (test_connection_sql secret)) as [conn1 [result | msg]];
    cbn [fst] in Hissued; [| exact Hissued].
  destruct (fetchdf result) as [df | msg]; [| exact Hissued].
  destruct (iloc_row df) as [row | msg]; [| exact Hissued].
  destruct (connection_info item_text row) as [info | msg]; exact Hissued.
Qed.

(** X12: the connection test issues one statement and no more, whatever
    comes back, and that statement is the text the passthrough wrapper
    builds for its probe query under the given secret. *)
Theorem test_connection_one_wrapped_statement :
  forall (conn : Conn E) (secret : string),
    issued (fst (_test_connection_via_duckdb item_text conn secret))
    = List.app (issued conn)
        [ wrapper
            "SELECT CURRENT_VERSION() AS V, CURRENT_ACCOUNT() AS A, CURRENT_USER() AS U, CURRENT_ROLE() AS R"
            secret ].
Proof.
  intros conn secret. apply test_connection_issued.
Qed.

(** X13: the connection test never raises and succeeds only on a result
    with a row and the four columns V, A, U and R: an error of the engine
    is returned as [(False, text)], and an empty result or a result that
    lacks one of the columns gives [False] as well; with a row and the four
    columns the answer is [True] with the line that starts with
    [Snowflake v]. *)
Theorem test_connection_fails_closed :
  forall (conn : Conn E) (secret : string) (e1 : E) (r : PyResult Cursor),
    engine_execute (engine conn) (test_connection_sql secret) = (e1, r) ->
    let res := snd (_test_connection_via_duckdb item_text conn secret) in
    (forall msg, r = Raises msg -> res = (false, msg))
    /\ (forall cur msg,
           r = Returns cur -> fetchdf cur = Raises msg -> res = (false, msg))
    /\ (forall cur df,
           r = Returns cur -> fetchdf cur = Returns df ->
           df_index_len df = 0 -> fst res = false)
    /\ (forall cur df label,
           r = Returns cur -> fetchdf cur = Returns df ->
           In label ["V"; "A"; "U"; "R"] -> ~ In label (columns df) ->
           fst res = false)
    /\ (forall cur df,
           r = Returns cur -> fetchdf cur = Returns df ->
           df_index_len df <> 0 ->
           (forall label, In label ["V"; "A"; "U"; "R"] -> In label (columns df)) ->
           exists rest, res = (true, "Snowflake v" ++ rest)).
Proof.
  intros conn secret e1 r Hrun res. subst res.
  unfold _test_connection_via_duckdb.
  rewrite (execute_eq conn (test_connection_sql secret) Hrun).
  split; [| split; [| split; [| split]]].
  - intros msg ->. reflexivity.
  - intros cur msg -> Hfetch. rewrite Hfetch. reflexivity.
  - intros cur df -> Hfetch Hrows. rewrite Hfetch.
    unfold iloc_row. rewrite Hrows. reflexivity.
  - intros cur df label -> Hfetch Hlabel Hmissing. rewrite Hfetch.
    unfold iloc_row. destruct (df_index_len df =? 0)%nat; [reflexivity |].
    cbv beta iota.
    set (row := map (fun p : string * list Cell => (fst p, hd NaNCell (snd p)))
                    (df_columns df)).
    assert (Habsent : existsb (fun p => String.eqb (fst p) label) row = false).
    { destruct (existsb (fun p => String.eqb (fst p) label) row) eqn:Hex;
        [| reflexivity].
      exfalso. apply Hmissing. now apply row_has_label. }
    unfold connection_info.
    destruct Hlabel as [<- | [<- | [<- | [<- | []]]]].
    + rewrite (row_item_absent row "V" Habsent). reflexivity.
    + destruct (row_item item_text row "V"); [| reflexivity].
      rewrite (row_item_absent row "A" Habsent). reflexivity.
    + destruct (row_item item_text row "V"); [| reflexivity].
      destruct (row_item item_text row "A"); [| reflexivity].
      rewrite (row_item_absent row "U" Habsent). reflexivity.
    + destruct (row_item item_text row "V"); [| reflexivity].
      destruct (row_item item_text row "A"); [| reflexivity].
      destruct (row_item item_text row "U"); [| reflexivity].
      rewrite (row_item_absent row "R" Habsent). reflexivity.
  - intros cur df -> Hfetch Hrows Hlabels. rewrite Hfetch.
    unfold iloc_row. apply Nat.eqb_neq in Hrows. rewrite Hrows.
    cbv beta iota.
    set (row := map (fun p : string * list Cell => (fst p, hd NaNCell (snd p)))
                    (df_columns df)).
    assert (Hpresent : forall label, In label ["V"; "A"; "U"; "R"] ->
                       row_item item_text row label
                       = Returns (item_text row label)).
    { intros label Hlabel. apply row_item_present.
      apply row_has_label, Hlabels, Hlabel. }
    unfold connection_info.
    rewrite (Hpresent "V"), (Hpresent "A"), (Hpresent "U"), (Hpresent "R")
      by (cbn; tauto).
    eexists. reflexivity.
Qed.

(** ** Connecting *)

Lemma ensure_extension_cases (st : Session E T) (conn : Conn E) :
  let install := "INSTALL snowflake FROM community;" in
  let load := "LOAD snowflake;" in
  let version := "SELECT snowflake_version();" in
  (extension_loaded st = true
   /\ _ensure_extension st conn = (st, conn, (true, "already loaded")))
  \/ (extension_loaded st = false
      /\ exists conn' msg,
           _ensure_extension st conn = (st, conn', (false, msg))
           /\ issued conn' = List.app (issued conn) [install; load])
  \/ (extension_loaded st = false
      /\ exists conn' ver,
           _ensure_extension st conn
           = (set_extension_loaded st true, conn', (true, ver))
           /\ issued conn' = List.app (issued conn) [install; load; version]).
Proof.
  cbv zeta. unfold _ensure_extension.
  destruct (extension_loaded st); [left; now split |]. right.
  destruct (engine_execute (engine conn) "INSTALL snowflake FROM community;")
    as [e1 r1] eqn:Hinstall.
  rewrite (execute_eq conn "INSTALL snowflake FROM community;" Hinstall).
  destruct (engine_execute e1 "LOAD snowflake;") as [e2 r2] eqn:Hload.
  erewrite execute_mk by exact Hload.
  destruct r2 as [cur2 | msg2].
  - right. split; [reflexivity |].
    unfold fetch_version.
    destruct (engine_execute e2 "SELECT snowflake_version();")
      as [e3 r3] eqn:Hversion.
    erewrite execute_mk by exact Hversion.
    destruct r3 as [cur3 | msg3].
    + destruct (fetchone cur3) as [[[| v row] |] | msg];
        eexists; eexists; (split; [reflexivity |]);
        cbn [issued]; rewrite <- !app_assoc; reflexivity.
    + eexists; eexists; split; [reflexivity |].
      cbn [issued]. rewrite <- !app_assoc. reflexivity.
  - left. split; [reflexivity |].
    eexists; eexists; split; [reflexivity |].
    cbn [issued]. rewrite <- !app_assoc. reflexivity.
Qed.

(** X14: without an account or without a user name the connect handler
    stops at its check: the session is returned as it was (no handle is
    opened, nothing is issued) and the one message is the error that both
    are required. *)
Theorem connect_requires_account_and_user :
  forall (st : Session E T)
         (account user auth_method password warehouse database role
          oauth_token private_key_pem private_key_passphrase : string),
    account = EmptyString \/ user = EmptyString ->
    on_connect memory_db item_text st account user auth_method password
      warehouse database role oauth_token private_key_pem
      private_key_passphrase
    = (st, [st_error "Account and Username are required."]).
Proof.
  intros st account user auth_method password warehouse database role
    oauth_token private_key_pem private_key_passphrase [-> | ->];
    unfold on_connect; cbn [truthy negb orb].
  - reflexivity.
  - destruct (truthy account); reflexivity.
Qed.

Lemma on_connect_preserves (st : Session E T)
    (account user auth_method password warehouse database role
     oauth_token private_key_pem private_key_passphrase : string) :
  let st' :=
    fst (on_connect memory_db item_text st account user auth_method password
           warehouse database role oauth_token private_key_pem
           private_key_passphrase) in
  query_history st' = query_history st
  /\ last_result st' = last_result st
  /\ last_query st' = last_query st
  /\ last_row_count st' = last_row_count st
  /\ attach_alias st' = attach_alias st
  /\ current_db st' = current_db st
  /\ current_schema st' = current_schema st
  /\ current_table st' = current_table st.
Proof.
  cbv zeta.
  destruct (truthy account) eqn:Haccount;
    [| unfold on_connect; rewrite Haccount; cbn [negb orb fst]; repeat split].
  destruct (truthy user) eqn:Huser;
    [| unfold on_connect; rewrite Haccount, Huser; cbn [negb orb fst];
       repeat split].
  unfold on_connect at 1. rewrite Haccount, Huser. cbn [negb orb].
  fold (on_connect memory_db item_text st account user auth_method password
          warehouse database role oauth_token private_key_pem
          private_key_passphrase).
  unfold on_connect. rewrite Haccount, Huser. cbn [negb orb].
  unfold _get_duckdb.
  destruct (duckdb_conn st) as [conn0 |] eqn:Hconn0; cbv beta iota;
    match goal with
    | |- context [_ensure_extension ?s ?c] =>
        destruct (ensure_extension_cases s c)
          as [[Hflag Hext] | [(Hflag & conn1 & detail & Hext & Hissued1)
                             | (Hflag & conn1 & detail & Hext & Hissued1)]];
        rewrite Hext; cbv beta iota; cbn [negb]
    end;
    try match goal with
    | |- context [_create_secret ?c ?n ?a ?u ?m ?p ?w ?d ?r ?o ?k ?pp] =>
        destruct (_create_secret c n a u m p w d r o k pp)
          as [conn2 [[|] sec_msg]]; cbn [negb]
    end;
    try match goal with
    | |- context [_test_connection_via_duckdb _ ?c ?n] =>
        destruct (_test_connection_via_duckdb item_text c n)
          as [conn3 [[|] info]]
    end;
    cbn [fst]; repeat split.
Qed.

(** X15: a connect attempt either succeeds, and then the session is
    connected under the secret [sf_explorer_secret], the extension flag is
    set, the preview is built from the account, the user, the method and the
    optional fields only (never from the password, the key or the token),
    and the messages are the success line and the extension caption; or it
    reports one error, and then the connected flag, the secret name and the
    preview are what they were before, so that an attempt from a
    disconnected session leaves it disconnected.  In both cases the
    history, the last result and the browse selections are untouched. *)
Theorem connect_succeeds_or_changes_nothing :
  forall (st : Session E T)
         (account user auth_method password warehouse database role
          oauth_token private_key_pem private_key_passphrase : string),
    let st' :=
      fst (on_connect memory_db item_text st account user auth_method password
             warehouse database role oauth_token private_key_pem
             private_key_passphrase) in
    let notes :=
      snd (on_connect memory_db item_text st account user auth_method password
             warehouse database role oauth_token private_key_pem
             private_key_passphrase) in
    (((exists info detail,
          notes = [ st_success ("✅ " ++ info);
                    st_caption ("Extension: " ++ detail) ])
      /\ connected st' = true
      /\ secret_name st' = "sf_explorer_secret"
      /\ extension_loaded st' = true
      /\ conn_string_preview st'
         = connection_preview account user auth_method warehouse database role)
     \/ ((exists msg, notes = [st_error msg])
         /\ connected st' = connected st
         /\ secret_name st' = secret_name st
         /\ conn_string_preview st' = conn_string_preview st))
    /\ query_history st' = query_history st
    /\ last_result st' = last_result st
    /\ last_query st' = last_query st
    /\ current_table st' = current_table st.
Proof.
  intros st account user auth_method password warehouse database role
    oauth_token private_key_pem private_key_passphrase st' notes.
  split.
  2: { destruct (on_connect_preserves st account user auth_method password
                   warehouse database role oauth_token private_key_pem
                   private_key_passphrase)
         as (Hh & Hr & Hq & _ & _ & _ & _ & Ht).
       repeat split; assumption. }
  subst st' notes.
  destruct (truthy account) eqn:Haccount;
    [| unfold on_connect; rewrite Haccount; cbn [negb orb fst snd];
       right; split; [eexists; reflexivity | repeat split]].
  destruct (truthy user) eqn:Huser;
    [| unfold on_connect; rewrite Haccount, Huser; cbn [negb orb fst snd];
       right; split; [eexists; reflexivity | repeat split]].
  unfold on_connect. rewrite Haccount, Huser. cbn [negb orb].
  unfold _get_duckdb.
  destruct (duckdb_conn st) as [conn0 |] eqn:Hconn0; cbv beta iota;
    match goal with
    | |- context [_ensure_extension ?s ?c] =>
        destruct (ensure_extension_cases s c)
          as [[Hflag Hext] | [(Hflag & conn1 & detail & Hext & Hissued1)
                             | (Hflag & conn1 & detail & Hext & Hissued1)]];
        rewrite Hext; cbv beta iota; cbn [negb]
    end;
    try match goal with
    | |- context [_create_secret ?c ?n ?a ?u ?m ?p ?w ?d ?r ?o ?k ?pp] =>
        destruct (_create_secret c n a u m p w d r o k pp)
          as [conn2 [[|] sec_msg]]; cbn [negb]
    end;
    try match goal with
    | |- context [_test_connection_via_duckdb _ ?c ?n] =>
        destruct (_test_connection_via_duckdb item_text c n)
          as [conn3 [[|] info]]
    end;
    cbn [fst snd];
    first
      [ right; split; [eexists; reflexivity | repeat split; reflexivity]
      | left; split; [eexists; eexists; reflexivity |];
        repeat split; try reflexivity; assumption ].
Qed.

Lemma on_connect_issued (st : Session E T)
    (account user auth_method password warehouse database role
     oauth_token private_key_pem private_key_passphrase : string) :
  account <> EmptyString ->
  user <> EmptyString ->
  let name := "sf_explorer_secret" in
  let steps :=
    List.app
      (if extension_loaded st then []
       else [ "INSTALL snowflake FROM community;"; "LOAD snowflake;";
              "SELECT snowflake_version();" ])
      [ drop_secret_sql name;
        create_secret_sql name
          (secret_parts account user auth_method password warehouse database
             role oauth_token private_key_pem private_key_passphrase);
        test_connection_sql name ] in
  exists (conn' : Conn E) (n : nat),
    duckdb_conn
      (fst (on_connect memory_db item_text st account user auth_method
              password warehouse database role oauth_token private_key_pem
              private_key_passphrase))
    = Some conn'
    /\ issued conn'
       = List.app (issued (snd (_get_duckdb memory_db st))) (firstn n steps)
    /\ 2 <= n <= length steps.
Proof.
  intros Haccount Huser name steps. subst name steps.
  destruct account as [| a account]; [contradiction |].
  destruct user as [| u user]; [contradiction |].
  unfold on_connect. cbn [truthy negb orb].
  unfold _get_duckdb.
  destruct (duckdb_conn st) as [conn0 |] eqn:Hconn0; cbv beta iota;
    match goal with
    | |- context [_ensure_extension ?s ?c] =>
        destruct (ensure_extension_cases s c)
          as [[Hflag Hext] | [(Hflag & conn1 & detail & Hext & Hissued1)
                             | (Hflag & conn1 & detail & Hext & Hissued1)]];
        rewrite Hext; cbv beta iota; cbn [negb]
    end;
    try match goal with
    | |- context [_create_secret ?c ?n ?a ?u ?m ?p ?w ?d ?r ?o ?k ?pp] =>
        pose proof (create_secret_issued c n a u m p w d r o k pp) as Hissued2;
        destruct (_create_secret c n a u m p w d r o k pp)
          as [conn2 [[|] sec_msg]];
        cbn [fst] in Hissued2; cbn [negb]
    end;
    try match goal with
    | |- context [_test_connection_via_duckdb _ ?c ?n] =>
        pose proof (test_connection_issued c n) as Hissued3;
        destruct (_test_connection_via_duckdb item_text c n)
          as [conn3 [[|] info]];
        cbn [fst] in Hissued3
    end;
    cbn [extension_loaded set_duckdb_conn] in Hflag; rewrite Hflag;
    cbn [fst snd duckdb_conn set_duckdb_conn set_connected List.app];
    eexists;
    first
      [ exists 6; split; [reflexivity |];
        split; [| cbn [length]; lia];
        rewrite ?Hissued3, ?Hissued2, ?Hissued1, <- ?app_assoc; reflexivity
      | exists 5; split; [reflexivity |];
        split; [| cbn [length]; lia];
        rewrite ?Hissued3, ?Hissued2, ?Hissued1, <- ?app_assoc; reflexivity
      | exists 3; split; [reflexivity |];
        split; [| cbn [length]; lia];
        rewrite ?Hissued3, ?Hissued2, ?Hissued1, <- ?app_assoc; reflexivity
      | exists 2; split; [reflexivity |];
        split; [| cbn [length]; lia];
        rewrite ?Hissued3, ?Hissued2, ?Hissued1, <- ?app_assoc; reflexivity ].
Qed.

(** X16: a connect attempt with an account and a user leaves a handle in
    the session, and what it has issued on it is a leading part of a fixed
    sequence: INSTALL, LOAD and the version query (these three only when
    the extension is not loaded yet), then DROP SECRET, CREATE SECRET and
    the connection test.  At least two statements are issued, none twice,
    none out of order. *)
Theorem connect_statement_order :
  forall (st : Session E T)
         (account user auth_method password warehouse database role
          oauth_token private_key_pem private_key_passphrase : string),
    account <> EmptyString ->
    user <> EmptyString ->
    let name := "sf_explorer_secret" in
    let steps :=
      List.app
        (if extension_loaded st then []
         else [ "INSTALL snowflake FROM community;"; "LOAD snowflake;";
                "SELECT snowflake_version();" ])
        [ "DROP SECRET IF EXISTS sf_explorer_secret;";
          "CREATE SECRET sf_explorer_secret ("
          ++ String.concat ", "
               (secret_parts account user auth_method password warehouse
                  database role oauth_token private_key_pem
                  private_key_passphrase)
          ++ ");";
          wrapper
            "SELECT CURRENT_VERSION() AS V, CURRENT_ACCOUNT() AS A, CURRENT_USER() AS U, CURRENT_ROLE() AS R"
            name ] in
    exists (conn' : Conn E) (n : nat),
      duckdb_conn
        (fst (on_connect memory_db item_text st account user auth_method
                password warehouse database role oauth_token private_key_pem
                private_key_passphrase))
      = Some conn'
      /\ issued conn'
         = List.app (issued (snd (_get_duckdb memory_db st))) (firstn n steps)
      /\ 2 <= n <= length steps.
Proof.
  intros st account user auth_method password warehouse database role
    oauth_token private_key_pem private_key_passphrase Haccount Huser.
  exact (on_connect_issued st auth_method password warehouse database role
           oauth_token private_key_pem private_key_passphrase Haccount Huser).
Qed.

(** X17: a disconnect does not clear the history, the last result, the
    last query or the connection preview, and the connect that follows
    keeps the first three as well; that connect works on a new handle, on
    which it starts again with INSTALL and LOAD. *)
Theorem reconnect_keeps_history_on_new_handle :
  forall (st : Session E T)
         (account user auth_method password warehouse database role
          oauth_token private_key_pem private_key_passphrase : string),
    account <> EmptyString ->
    user <> EmptyString ->
    let st1 := fst (on_disconnect st) in
    let st2 :=
      fst (on_connect memory_db item_text st1 account user auth_method password
             warehouse database role oauth_token private_key_pem
             private_key_passphrase) in
    (query_history st1 = query_history st
     /\ last_result st1 = last_result st
     /\ last_query st1 = last_query st
     /\ conn_string_preview st1 = conn_string_preview st)
    /\ (query_history st2 = query_history st
        /\ last_result st2 = last_result st
        /\ last_query st2 = last_query st)
    /\ exists (conn' : Conn E) (n : nat),
         duckdb_conn st2 = Some conn'
         /\ 2 <= n
         /\ issued conn'
            = firstn n
                [ "INSTALL snowflake FROM community;"; "LOAD snowflake;";
                  "SELECT snowflake_version();";
                  "DROP SECRET IF EXISTS sf_explorer_secret;";
                  "CREATE SECRET sf_explorer_secret ("
                  ++ String.concat ", "
                       (secret_parts account user auth_method password
                          warehouse database role oauth_token private_key_pem
                          private_key_passphrase)
                  ++ ");";
                  test_connection_sql "sf_explorer_secret" ].
Proof.
  intros st account user auth_method password warehouse database role
    oauth_token private_key_pem private_key_passphrase Haccount Huser st1 st2.
  split; [repeat split |]. split.
  - destruct (on_connect_preserves st1 account user auth_method password
                warehouse database role oauth_token private_key_pem
                private_key_passphrase)
      as (Hh & Hr & Hq & _).
    fold st2 in Hh, Hr, Hq. rewrite Hh, Hr, Hq. repeat split.
  - destruct (on_connect_issued st1 auth_method password warehouse database
                role oauth_token private_key_pem private_key_passphrase
                Haccount Huser)
      as (conn' & n & Hconn & Hissued & Hn).
    exists conn', n. split; [exact Hconn |]. split; [lia |].
    exact Hissued.
Qed.

(** ** Text: prefixes and reversal *)

Lemma string_app_nil_r (s : string) : s ++ EmptyString = s.
Proof.
  induction s as [| c s IH]; cbn; [reflexivity | now rewrite IH].
Qed.

Lemma string_length_app (a b : string) :
  String.length (a ++ b) = String.length a + String.length b.
Proof.
  induction a as [| c a IH]; cbn; [reflexivity | now rewrite IH].
Qed.

Lemma string_rev_app (a b : string) :
  string_rev (a ++ b) = string_rev b ++ string_rev a.
Proof.
  induction a as [| c a IH]; cbn.
  - now rewrite string_app_nil_r.
  - now rewrite IH, string_app_assoc.
Qed.

Lemma string_rev_involutive (s : string) : string_rev (string_rev s) = s.
Proof.
  induction s as [| c s IH]; cbn; [reflexivity |].
  now rewrite string_rev_app, IH.
Qed.

Lemma string_rev_length (s : string) :
  String.length (string_rev s) = String.length s.
Proof.
  induction s as [| c s IH]; cbn; [reflexivity |].
  rewrite string_length_app, IH. cbn. lia.
Qed.

Lemma count_char_app (c : ascii) (a b : string) :
  count_char c (a ++ b) = count_char c a + count_char c b.
Proof.
  induction a as [| d a IH]; cbn; [reflexivity | rewrite IH; lia].
Qed.

Lemma count_char_rev (c : ascii) (s : string) :
  count_char c (string_rev s) = count_char c s.
Proof.
  induction s as [| d s IH]; cbn; [reflexivity |].
  rewrite count_char_app, IH. cbn. lia.
Qed.

Lemma prefix_iff (w s : string) :
  String.prefix w s = true <-> exists t, s = w ++ t.
Proof.
  revert s. induction w as [| a w IH]; intros s.
  - destruct s; cbn; split; eauto.
  - destruct s as [| b s]; cbn.
    + split; [discriminate | intros [t Ht]; discriminate].
    + destruct (ascii_dec a b) as [-> | Hne].
      * rewrite IH. split; intros [t Ht]; exists t.
        -- now rewrite Ht.
        -- now injection Ht.
      * split; [discriminate |]. intros [t Ht]. injection Ht as Hab _.
        now subst.
Qed.

Lemma string_drop_app (w t : string) :
  string_drop (String.length w) (w ++ t) = t.
Proof.
  induction w as [| a w IH]; cbn; [now destruct t | exact IH].
Qed.

Lemma prefix_drop (w s : string) :
  String.prefix w s = true -> s = w ++ string_drop (String.length w) s.
Proof.
  intros Hpre. apply prefix_iff in Hpre. destruct Hpre as [t ->].
  now rewrite string_drop_app.
Qed.

Lemma prefix_extend (w a t : string) :
  String.prefix w a = true -> String.prefix w (a ++ t) = true.
Proof.
  intros Hpre. apply prefix_iff in Hpre. destruct Hpre as [u ->].
  apply prefix_iff. exists (u ++ t). apply string_app_assoc.
Qed.

Lemma leading_some (seqs : list string) (s w : string) :
  leading seqs s = Some w -> In w seqs /\ String.prefix w s = true.
Proof.
  induction seqs as [| v seqs IH]; cbn; [discriminate |].
  destruct (String.prefix v s) eqn:Hv.
  - intros Heq. injection Heq as <-. split; [now left | exact Hv].
  - intros Heq. destruct (IH Heq) as [Hin Hpre]. split; [now right | exact Hpre].
Qed.

Lemma leading_none (seqs : list string) (s : string) :
  leading seqs s = None <-> starts_with_any seqs s = false.
Proof.
  unfold starts_with_any. induction seqs as [| v seqs IH]; cbn.
  - split; reflexivity.
  - destruct (String.prefix v s); cbn; [split; discriminate | exact IH].
Qed.

Lemma starts_with_any_empty (seqs : list string) :
  (forall w, In w seqs -> w <> EmptyString) ->
  starts_with_any seqs EmptyString = false.
Proof.
  unfold starts_with_any. induction seqs as [| v seqs IH]; intros Hne; cbn.
  - reflexivity.
  - destruct v as [| a v];
      [exfalso; apply (Hne EmptyString); [now left | reflexivity] |].
    cbn. apply IH. intros w Hw. apply Hne. now right.
Qed.

Lemma starts_with_any_shorter (seqs : list string) (a t : string) :
  starts_with_any seqs (a ++ t) = false -> starts_with_any seqs a = false.
Proof.
  unfold starts_with_any. induction seqs as [| v seqs IH]; cbn.
  - reflexivity.
  - destruct (String.prefix v a) eqn:Hv.
    + rewrite (prefix_extend v a t Hv). discriminate.
    + cbn. intros Hrest. apply IH.
      destruct (String.prefix v (a ++ t)); [discriminate | exact Hrest].
Qed.

Lemma ends_with_any_rev (seqs : list string) (s : string) :
  ends_with_any seqs s = starts_with_any (map string_rev seqs) (string_rev s).
Proof.
  unfold ends_with_any, starts_with_any.
  induction seqs as [| v seqs IH]; cbn; [reflexivity | now rewrite IH].
Qed.

(** ** Text: stripping *)

Lemma lstrip_fuel_suffix (seqs : list string) (n : nat) (s : string) :
  exists p, s = p ++ lstrip_fuel seqs n s.
Proof.
  revert s. induction n as [| n IH]; intros s; cbn.
  - now exists EmptyString.
  - destruct (leading seqs s) as [w |] eqn:Hlead; [| now exists EmptyString].
    destruct (leading_some seqs s Hlead) as [_ Hpre].
    destruct (IH (string_drop (String.length w) s)) as [p Hp].
    exists (w ++ p). rewrite string_app_assoc, <- Hp.
    now apply prefix_drop.
Qed.

Lemma lstrip_fuel_clean (seqs : list string) :
  (forall w, In w seqs -> w <> EmptyString) ->
  forall (n : nat) (s : string),
    String.length s <= n ->
    starts_with_any seqs (lstrip_fuel seqs n s) = false.
Proof.
  intros Hne. induction n as [| n IH]; intros s Hlen; cbn.
  - destruct s; [| cbn in Hlen; lia]. now apply starts_with_any_empty.
  - destruct (leading seqs s) as [w |] eqn:Hlead; [| now apply leading_none].
    destruct (leading_some seqs s Hlead) as [Hin Hpre].
    apply IH. pose proof (prefix_drop w s Hpre) as Hs.
    assert (Hw : String.length w <> 0).
    { destruct w; [exfalso; now apply (Hne EmptyString) | discriminate]. }
    apply (f_equal String.length) in Hs. rewrite string_length_app in Hs. lia.
Qed.

Lemma lstrip_fuel_fixed (seqs : list string) (n : nat) (s : string) :
  starts_with_any seqs s = false -> lstrip_fuel seqs n s = s.
Proof.
  intros Hclean. apply leading_none in Hclean.
  destruct n; cbn; [reflexivity | now rewrite Hclean].
Qed.

Lemma rev_nonempty (seqs : list string) :
  (forall w, In w seqs -> w <> EmptyString) ->
  forall w, In w (map string_rev seqs) -> w <> EmptyString.
Proof.
  intros Hne w Hw. apply in_map_iff in Hw. destruct Hw as (v & <- & Hv).
  intros Hrev. apply (Hne v Hv).
  apply (f_equal String.length) in Hrev. rewrite string_rev_length in Hrev.
  destruct v; [reflexivity | discriminate].
Qed.

Lemma lstrip_clean (seqs : list string) (s : string) :
  (forall w, In w seqs -> w <> EmptyString) ->
  starts_with_any seqs (lstrip_seqs seqs s) = false.
Proof.
  intros Hne. unfold lstrip_seqs. now apply lstrip_fuel_clean.
Qed.

Lemma rstrip_clean (seqs : list string) (s : string) :
  (forall w, In w seqs -> w <> EmptyString) ->
  ends_with_any seqs (rstrip_seqs seqs s) = false.
Proof.
  intros Hne. rewrite ends_with_any_rev. unfold rstrip_seqs.
  rewrite string_rev_involutive. apply lstrip_clean. now apply rev_nonempty.
Qed.

Lemma rstrip_prefix (seqs : list string) (s : string) :
  exists t, s = rstrip_seqs seqs s ++ t.
Proof.
  unfold rstrip_seqs, lstrip_seqs.
  destruct (lstrip_fuel_suffix (map string_rev seqs)
              (String.length (string_rev s)) (string_rev s)) as [p Hp].
  exists (string_rev p).
  rewrite <- string_rev_app, <- Hp. symmetry. apply string_rev_involutive.
Qed.

Lemma rstrip_fixed (seqs : list string) (s : string) :
  ends_with_any seqs s = false -> rstrip_seqs seqs s = s.
Proof.
  intros Hclean. rewrite ends_with_any_rev in Hclean.
  unfold rstrip_seqs, lstrip_seqs.
  rewrite (lstrip_fuel_fixed _ _ _ Hclean). apply string_rev_involutive.
Qed.

Lemma whitespace_nonempty : forall w, In w whitespace -> w <> EmptyString.
Proof.
  assert (Hall : forallb (fun w => negb (String.eqb w EmptyString)) whitespace
                 = true) by (vm_compute; reflexivity).
  intros w Hw. rewrite forallb_forall in Hall. specialize (Hall w Hw).
  intros ->. discriminate.
Qed.

Lemma strip_clean_left (s : string) :
  starts_with_any whitespace (strip s) = false.
Proof.
  unfold strip.
  destruct (rstrip_prefix whitespace (lstrip_seqs whitespace s)) as [t Ht].
  apply (starts_with_any_shorter whitespace _ t). rewrite <- Ht.
  apply lstrip_clean, whitespace_nonempty.
Qed.

Lemma strip_clean_right (s : string) :
  ends_with_any whitespace (strip s) = false.
Proof.
  unfold strip. apply rstrip_clean, whitespace_nonempty.
Qed.

Lemma strip_fixed (s : string) :
  starts_with_any whitespace s = false ->
  ends_with_any whitespace s = false ->
  strip s = s.
Proof.
  intros Hleft Hright. unfold strip, lstrip_seqs.
  rewrite (lstrip_fuel_fixed _ _ _ Hleft). now apply rstrip_fixed.
Qed.

Lemma strip_inside (s : string) : exists a b, s = a ++ strip s ++ b.
Proof.
  unfold strip.
  destruct (lstrip_fuel_suffix whitespace (String.length s) s) as [a Ha].
  destruct (rstrip_prefix whitespace (lstrip_seqs whitespace s)) as [b Hb].
  exists a, b. rewrite <- Hb. exact Ha.
Qed.


(** ** Text: splitting *)

Lemma split_char_nonempty (sep : ascii) (s : string) : split_char sep s <> [].
Proof.
  destruct s as [| c s]; cbn; [discriminate |].
  destruct (Ascii.eqb c sep); [discriminate |].
  destruct (split_char sep s); discriminate.
Qed.

Lemma split_char_pieces (sep : ascii) (s : string) :
  Forall (fun piece => count_char sep piece = 0) (split_char sep s).
Proof.
  induction s as [| c s IH]; cbn.
  - constructor; [reflexivity | constructor].
  - destruct (Ascii.eqb c sep) eqn:Hc.
    + constructor; [reflexivity | exact IH].
    + destruct (split_char sep s) as [| piece pieces].
      * constructor; [cbn; now rewrite Hc | constructor].
      * inversion IH as [| ? ? Hpiece Hpieces]; subst.
        constructor; [cbn; now rewrite Hc, Hpiece | exact Hpieces].
Qed.


Lemma split_char_single (sep : ascii) (s : string) :
  count_char sep s = 0 -> split_char sep s = [s].
Proof.
  induction s as [| c s IH]; cbn; [reflexivity |].
  destruct (Ascii.eqb c sep); [discriminate |].
  cbn. intros Hcount. now rewrite IH.
Qed.


(** ** The statements of the local tab *)

Lemma statements_of_clean (local_sql stmt : string) :
  In stmt (statements_of local_sql) ->
  stmt <> EmptyString
  /\ count_char ";" stmt = 0
  /\ strip stmt = stmt.
Proof.
  unfold statements_of. intros Hin. apply in_map_iff in Hin.
  destruct Hin as (piece & <- & Hpiece). apply filter_In in Hpiece.
  destruct Hpiece as [Hpiece Htruthy].
  split; [| split].
  - intros Hempty. rewrite Hempty in Htruthy. discriminate.
  - pose proof (split_char_pieces ";" (rstrip_semicolons (strip local_sql)))
      as Hall.
    rewrite Forall_forall in Hall. specialize (Hall piece Hpiece).
    destruct (strip_inside piece) as (a & b & Hab).
    rewrite Hab, !count_char_app in Hall. lia.
  - apply strip_fixed; [apply strip_clean_left | apply strip_clean_right].
Qed.

Lemma rstrip_semicolons_without (s : string) :
  count_char ";" s = 0 -> rstrip_semicolons s = s.
Proof.
  intros Hcount. apply rstrip_fixed. unfold ends_with_any. cbn.
  destruct (String.prefix ";" (string_rev s)) eqn:Hpre; [| reflexivity].
  apply prefix_iff in Hpre. destruct Hpre as [t Ht].
  apply (f_equal (count_char ";")) in Ht. rewrite count_char_rev in Ht.
  cbn in Ht. lia.
Qed.

Lemma statements_of_blank (local_sql : string) :
  strip local_sql = EmptyString -> statements_of local_sql = [].
Proof.
  intros Hblank. unfold statements_of. rewrite Hblank. reflexivity.
Qed.

(** X18: every statement the local tab takes from its editor is non-empty,
    holds no semicolon and has no whitespace at either end. *)
Theorem statements_are_trimmed_and_nonempty :
  forall local_sql stmt : string,
    In stmt (statements_of local_sql) ->
    stmt <> EmptyString
    /\ count_char ";" stmt = 0
    /\ starts_with_any whitespace stmt = false
    /\ ends_with_any whitespace stmt = false.
Proof.
  intros local_sql stmt Hin.
  destruct (statements_of_clean local_sql stmt Hin) as (Hne & Hsemi & Hstrip).
  split; [exact Hne |]. split; [exact Hsemi |].
  rewrite <- Hstrip. split; [apply strip_clean_left | apply strip_clean_right].
Qed.

(** X19: a text without a semicolon is one statement, its stripped form,
    or none when only whitespace is left; and a text that strips to
    nothing gives no statement at all. *)
Theorem statements_of_one_statement :
  forall local_sql : string,
    (strip local_sql = EmptyString -> statements_of local_sql = [])
    /\ (count_char ";" local_sql = 0 ->
        strip local_sql <> EmptyString ->
        statements_of local_sql = [strip local_sql]).
Proof.
  intros local_sql. split; [apply statements_of_blank |].
  intros Hsemi Hne.
  assert (Hstripped : count_char ";" (strip local_sql) = 0).
  { destruct (strip_inside local_sql) as (a & b & Hab).
    rewrite Hab, !count_char_app in Hsemi. lia. }
  assert (Hidem : strip (strip local_sql) = strip local_sql).
  { apply strip_fixed; [apply strip_clean_left | apply strip_clean_right]. }
  unfold statements_of.
  rewrite (rstrip_semicolons_without _ Hstripped).
  rewrite (split_char_single ";" _ Hstripped).
  cbn [filter]. rewrite Hidem.
  destruct (strip local_sql) as [| c rest]; [contradiction |].
  cbn [truthy map]. now rewrite Hidem.
Qed.

(** ** The query of the remote tab *)

Lemma lstrip_fuel_semicolons (n : nat) (s : string) :
  exists p,
    s = p ++ lstrip_fuel [";"] n s
    /\ String.length p = count_char ";" p.
Proof.
  revert s. induction n as [| n IH]; intros s; cbn [lstrip_fuel].
  - now exists EmptyString.
  - destruct (leading [";"] s) as [w |] eqn:Hlead; [| now exists EmptyString].
    destruct (leading_some [";"] s Hlead) as [[<- | []] Hpre].
    destruct (IH (string_drop (String.length ";") s)) as (p & Hp & Hlen).
    exists (";" ++ p). split.
    + rewrite string_app_assoc, <- Hp. now apply prefix_drop.
    + cbn. now rewrite Hlen.
Qed.

Lemma rstrip_semicolons_split (s : string) :
  exists semis,
    s = rstrip_semicolons s ++ semis
    /\ String.length semis = count_char ";" semis.
Proof.
  unfold rstrip_semicolons, rstrip_seqs, lstrip_seqs.
  change (map string_rev [";"]) with [";"].
  destruct (lstrip_fuel_semicolons (String.length (string_rev s)) (string_rev s))
    as (p & Hp & Hlen).
  exists (string_rev p). split.
  - rewrite <- string_rev_app, <- Hp. symmetry. apply string_rev_involutive.
  - now rewrite string_rev_length, count_char_rev.
Qed.

Lemma sf_query_of_truthy (sf_run sf_explain : bool) (sf_sql q : string) :
  sf_query_of sf_run sf_explain sf_sql = Some q -> truthy q = true.
Proof.
  unfold sf_query_of.
  destruct (sf_run && truthy (strip sf_sql))%bool eqn:Hrun.
  - intros Heq. injection Heq as <-.
    apply andb_true_iff in Hrun. apply Hrun.
  - destruct (sf_explain && truthy (strip sf_sql))%bool; [| discriminate].
    intros Heq. injection Heq as <-. reflexivity.
Qed.

(** X20: the remote tab builds no query when the editor strips to nothing
    or no button was pressed; Run gives the stripped text; and Explain, when
    Run was not pressed, gives [EXPLAIN] followed by the stripped text
    without its trailing semicolons, so that the query never ends with a
    semicolon and nothing but semicolons was cut off. *)
Theorem sf_query_from_buttons :
  forall (sf_run sf_explain : bool) (sf_sql : string),
    (strip sf_sql = EmptyString -> sf_query_of sf_run sf_explain sf_sql = None)
    /\ (sf_run = false -> sf_explain = false ->
        sf_query_of sf_run sf_explain sf_sql = None)
    /\ (sf_run = true -> strip sf_sql <> EmptyString ->
        sf_query_of sf_run sf_explain sf_sql = Some (strip sf_sql))
    /\ (sf_run = false -> sf_explain = true -> strip sf_sql <> EmptyString ->
        exists body semis,
          sf_query_of sf_run sf_explain sf_sql = Some ("EXPLAIN " ++ body)
          /\ strip sf_sql = body ++ semis
          /\ String.length semis = count_char ";" semis
          /\ ends_with_any [";"] body = false).
Proof.
  intros sf_run sf_explain sf_sql. unfold sf_query_of.
  split; [| split; [| split]].
  - intros ->. cbn [truthy]. now rewrite !andb_false_r.
  - intros -> ->. reflexivity.
  - intros -> Hne. destruct (strip sf_sql); [contradiction | reflexivity].
  - intros -> -> Hne.
    destruct (rstrip_semicolons_split (strip sf_sql)) as (semis & Hsplit & Hlen).
    exists (rstrip_semicolons (strip sf_sql)), semis.
    split; [| split; [exact Hsplit | split; [exact Hlen |]]].
    + destruct (strip sf_sql); [contradiction | reflexivity].
    + apply rstrip_clean. intros w [<- | []]. discriminate.
Qed.

(** ** The two tabs, from the editor to the engine *)

(** X21: pressing Run in the local tab passes to the engine statements
    taken from the editor, in order, beginning with the first and without a
    gap: all of them when the drawing of no result raised; and nothing when
    the editor strips to nothing or Run was not pressed.  So no empty
    statement and no statement with a semicolon ever reaches the engine
    from this tab. *)
Theorem local_tab_runs_its_statements :
  forall (st : Session E T) (clk : K) (conn : Conn E) (page : W)
         (local_run : bool) (local_sql : string),
    let sent := if local_run then statements_of local_sql else [] in
    let run := tab_local_run st clk conn page local_run local_sql in
    (exists n : nat,
        n <= length sent
        /\ issued (run_conn run) = List.app (issued conn) (firstn n sent))
    /\ (run_raised run = None ->
        issued (run_conn run) = List.app (issued conn) sent)
    /\ (local_run = false \/ strip local_sql = EmptyString ->
        run = mkLocalRun st clk conn page None)
    /\ Forall (fun stmt => stmt <> EmptyString /\ count_char ";" stmt = 0) sent.
Proof.
  intros st clk conn page local_run local_sql sent run. subst sent run.
  unfold tab_local_run.
  destruct local_run; cbn [andb].
  - destruct (truthy (strip local_sql)) eqn:Htruthy.
    + split; [apply tab_local_issued_prefix |].
      split; [apply tab_local_issued_all |]. split.
      * intros [Hrun | Hblank]; [discriminate |].
        rewrite Hblank in Htruthy. discriminate.
      * apply Forall_forall. intros stmt Hin.
        destruct (statements_of_clean local_sql stmt Hin) as (Hne & Hsemi & _).
        now split.
    + assert (Hblank : strip local_sql = EmptyString)
        by (destruct (strip local_sql); [reflexivity | discriminate]).
      rewrite (statements_of_blank local_sql Hblank). cbn [run_conn].
      split; [exists 0; split; [apply le_n | now rewrite app_nil_r] |].
      split; [intros _; now rewrite app_nil_r |].
      split; [reflexivity | constructor].
  - cbn [run_conn].
    split; [exists 0; split; [apply le_n | now rewrite app_nil_r] |].
    split; [intros _; now rewrite app_nil_r |].
    split; [reflexivity | constructor].
Qed.

(** X22: the remote tab passes to the engine one statement, the wrapper
    of the query built from the buttons and the editor, and when no query
    is built it passes nothing and leaves the session, the clock and the
    handle as they were. *)
Theorem remote_tab_runs_one_wrapped_query :
  forall (st : Session E T) (clk : K) (conn : Conn E)
         (sf_run sf_explain : bool) (sf_sql secret : string),
    issued (snd (tab_query_run st clk conn sf_run sf_explain sf_sql secret))
    = List.app (issued conn)
        match sf_query_of sf_run sf_explain sf_sql with
        | Some q => [wrapper q secret]
        | None => []
        end
    /\ (sf_query_of sf_run sf_explain sf_sql = None ->
        tab_query_run st clk conn sf_run sf_explain sf_sql secret
        = (st, clk, conn)).
Proof.
  intros st clk conn sf_run sf_explain sf_sql secret.
  unfold tab_query_run, tab_query.
  destruct (sf_query_of sf_run sf_explain sf_sql) as [q |] eqn:Hquery.
  - split; [| discriminate].
    rewrite (sf_query_of_truthy sf_run sf_explain sf_sql Hquery).
    pose proof (run_query_issued clk conn (wrapper q secret)) as Hissued.
    unfold _snowflake_query.
    destruct (_run_query_duckdb clk conn (wrapper q secret))
      as [[clk1 conn1] [[df elapsed] err]].
    cbn [fst snd] in Hissued.
    destruct (truthy err); [exact Hissued |].
    destruct df as [df |]; exact Hissued.
  - split; [cbn [snd]; now rewrite app_nil_r | reflexivity].
Qed.

End MoreProperties.

(** * The keys of the export buttons *)

Section KeyedButtons.

Context {E : Type} `{Eng : Engine E}.
Context {K T : Type} `{Clk : Clock K T}.
Context {Exp : Export}.







End KeyedButtons.

(** ** The further theorems at concrete inputs *)

Lemma create_secret_unknown_method_witness :
  has_clause "PASSWORD"
    (secret_parts "xy12345" "alice" "SSO" "secret" "" "" "" "" "" "") = false.
Proof.
  pose proof (@create_secret_unknown_method Script script_engine (fresh [])
                "sf_explorer_secret" "xy12345" "alice" "SSO" "secret"
                "" "" "" "" "" "")
    as Hunknown.
  assert (Hp : "SSO" <> "Password") by discriminate.
  assert (Hk : "SSO" <> "Key Pair") by discriminate.
  assert (Ho : "SSO" <> "OAuth Token") by discriminate.
  exact (proj1 (proj2 (Hunknown Hp Hk Ho))).
Defined.

Lemma create_secret_fields_not_escaped_witness :
  issued (fst (_create_secret (fresh []) "sf_explorer_secret" "xy12345"
                 "alice" "Password" "pw', ROLE 'ACCOUNTADMIN" "" "" ""
                 "" "" ""))
  = issued (fst (_create_secret (fresh []) "sf_explorer_secret" "xy12345"
                   "alice" "Password" "pw" "" "" "ACCOUNTADMIN" "" "" "")).
Proof.
  exact (@create_secret_fields_not_escaped Script script_engine (fresh [])
           "sf_explorer_secret" "xy12345" "alice" "pw" "ACCOUNTADMIN"
           "" "" "" eq_refl).
Defined.

Lemma wrapper_arguments_read_back_witness :
  exists after_open : string,
    wrapper "SELECT 'a;b'" "sf_explorer_secret"
    = "SELECT * FROM snowflake_query('" ++ after_open
    /\ read_quoted after_open
       = Some ("SELECT 'a;b'", ", '" ++ "sf_explorer_secret" ++ "');")
    /\ read_quoted ("sf_explorer_secret" ++ "');")
       = Some ("sf_explorer_secret", ");").
Proof.
  destruct (wrapper_arguments_read_back "SELECT 'a;b'" "sf_explorer_secret")
    as (after_open & Hwrapper & Hfirst & Hsecond).
  exists after_open.
  split; [exact Hwrapper |]. split; [exact Hfirst | exact (Hsecond eq_refl)].
Defined.

(** The position -1 is the last column, its null kept as text. *)
Lemma sf_fetch_list_by_position_witness :
  snd (_sf_fetch_list (Low := ascii_lowering)
         0 (fresh [Returns (cursor_of frame_with_null)])
         "SHOW DATABASES" "sf_explorer_secret" (ColIndex (-1)))
  = Returns ["DB1"; "None"; "DB2"].
Proof.
  pose proof (@sf_fetch_list_by_position Script script_engine nat nat tick_clock
                ascii_lowering
                0 (fresh [Returns (cursor_of frame_with_null)])
                "SHOW DATABASES" "sf_explorer_secret" (-1)%Z
                [] (cursor_of frame_with_null) frame_with_null
                eq_refl eq_refl eq_refl)
    as (_ & Hnegative & _).
  apply Hnegative. cbn. lia.
Defined.

(** A query the warehouse rejects leaves the session as it was. *)
Lemma tab_query_result_or_unchanged_witness :
  fst (fst (tab_query (connected_session (fresh []))
              0 (fresh [Raises "SQL compilation error"])
              (Some "SELEC 1") "sf_explorer_secret"))
  = connected_session (fresh []).
Proof.
  pose proof (@tab_query_result_or_unchanged Script script_engine nat nat
                tick_clock (connected_session (fresh [])) 0
                (fresh [Raises "SQL compilation error"])
                "SELEC 1" "sf_explorer_secret"
                [] (Raises "SQL compilation error") eq_refl eq_refl)
    as (Hfailed & _).
  exact (Hfailed "SQL compilation error" eq_refl).
Defined.

Lemma history_is_most_recent_fifty_witness :
  insert_all (map numbered_entry (seq 0 60)) []
  = map numbered_entry (rev (seq 10 50)).
Proof.
  pose proof (history_is_most_recent_fifty (map numbered_entry (seq 0 60)) []
                (Nat.le_0_l 50))
    as (Hrecent & _).
  rewrite Hrecent. reflexivity.
Defined.

(** A remote query and a local statement, each on a handle of its own;
    the local result is drawn on a page without a key in use. *)
Lemma rerun_returns_to_recording_tab_witness :
  (exists e older,
      query_history
        (fst (fst (tab_query (connected_session (fresh []))
                     0 (fresh [Returns (cursor_of probe_frame)])
                     (Some "SELECT 2") "sf_explorer_secret")))
      = e :: older
      /\ rerun_target e = "sf_sql_input" /\ h_sql e = "SELECT 2")
  /\ (exists e older,
         query_history
           (run_session
              (tab_local (Exp := header_export) (connected_session (fresh []))
                 0 (fresh [Returns (cursor_of probe_frame)]) ([] : Registry)
                 ["SELECT 1"]))
         = e :: older
         /\ rerun_target e = "local_sql_input" /\ h_sql e = "SELECT 1").
Proof.
  pose proof (@rerun_returns_to_recording_tab Script script_engine nat nat
                tick_clock Registry key_registry header_export
                (connected_session (fresh [])) 0
                (fresh [Returns (cursor_of probe_frame)]) [])
    as (Hremote & Hlocal).
  split.
  - exact (Hremote "SELECT 2" "sf_explorer_secret" []
             (cursor_of probe_frame) probe_frame eq_refl eq_refl eq_refl).
  - exact (Hlocal "SELECT 1" [] (cursor_of probe_frame) probe_frame
             eq_refl eq_refl).
Defined.

Lemma get_duckdb_cached_witness :
  fst (_get_duckdb [] (connected_session (fresh [Raises "unused"])))
  = connected_session (fresh [Raises "unused"])
  /\ snd (_get_duckdb [] (connected_session (fresh [Raises "unused"])))
     = fresh [Raises "unused"].
Proof.
  pose proof (@get_duckdb_cached Script script_engine nat []
                (connected_session (fresh [Raises "unused"])))
    as (_ & _ & Hthere & _).
  exact (Hthere (fresh [Raises "unused"]) eq_refl).
Defined.

(** The probe comes back without a row: the test fails. *)
Lemma test_connection_fails_closed_witness :
  fst (snd (_test_connection_via_duckdb plain_item
              (fresh [Returns (cursor_of empty_frame)]) "sf_explorer_secret"))
  = false.
Proof.
  pose proof (@test_connection_fails_closed Script script_engine plain_item
                (fresh [Returns (cursor_of empty_frame)]) "sf_explorer_secret"
                [] (Returns (cursor_of empty_frame)) eq_refl)
    as (_ & _ & Hempty & _).
  exact (Hempty (cursor_of empty_frame) empty_frame eq_refl eq_refl eq_refl).
Defined.

Lemma connect_requires_account_and_user_witness :
  on_connect [] plain_item disconnected_session "" "alice" "Password" "secret"
    "" "" "" "" "" ""
  = (disconnected_session, [st_error "Account and Username are required."]).
Proof.
  exact (@connect_requires_account_and_user Script script_engine nat []
           plain_item disconnected_session "" "alice" "Password" "secret"
           "" "" "" "" "" "" (or_introl eq_refl)).
Defined.

Lemma account_and_user_given :
  "xy12345" <> EmptyString /\ "alice" <> EmptyString.
Proof.
  split; discriminate.
Defined.

(** From a disconnected session, LOAD raising: two statements issued. *)
Lemma connect_statement_order_witness :
  exists (conn' : Conn Script) (n : nat),
    duckdb_conn
      (fst (on_connect [Returns (cursor_of empty_frame); Raises "IO Error"]
              plain_item disconnected_session "xy12345" "alice" "Password"
              "secret" "" "" "" "" "" ""))
    = Some conn'
    /\ issued conn'
       = firstn n
           [ "INSTALL snowflake FROM community;"; "LOAD snowflake;";
             "SELECT snowflake_version();";
             "DROP SECRET IF EXISTS sf_explorer_secret;";
             "CREATE SECRET sf_explorer_secret (TYPE snowflake, ACCOUNT 'xy12345', USER 'alice', PASSWORD 'secret');";
             "SELECT * FROM snowflake_query('SELECT CURRENT_VERSION() AS V, CURRENT_ACCOUNT() AS A, CURRENT_USER() AS U, CURRENT_ROLE() AS R', 'sf_explorer_secret');" ]
    /\ 2 <= n <= 6.
Proof.
  exact (@connect_statement_order Script script_engine nat
           [Returns (cursor_of empty_frame); Raises "IO Error"]
           plain_item disconnected_session "xy12345" "alice" "Password"
           "secret" "" "" "" "" "" ""
           (proj1 account_and_user_given) (proj2 account_and_user_given)).
Defined.

Lemma reconnect_keeps_history_on_new_handle_witness :
  query_history
    (fst (on_connect [] plain_item
            (fst (on_disconnect (connected_session (fresh []))))
            "xy12345" "alice" "Password" "secret" "" "" "" "" "" ""))
  = query_history (connected_session (fresh [])).
Proof.
  pose proof (@reconnect_keeps_history_on_new_handle Script script_engine nat
                [] plain_item (connected_session (fresh []))
                "xy12345" "alice" "Password" "secret" "" "" "" "" "" ""
                (proj1 account_and_user_given) (proj2 account_and_user_given))
    as (_ & (Hhistory & _) & _).
  exact Hhistory.
Defined.


Lemma statements_are_trimmed_and_nonempty_witness :
  "SELECT 2" <> EmptyString /\ count_char ";" "SELECT 2" = 0.
Proof.
  assert (Hin : In "SELECT 2" (statements_of " SELECT 1 ; ;; SELECT 2; ")).
  { vm_compute. right. left. reflexivity. }
  pose proof (statements_are_trimmed_and_nonempty
                " SELECT 1 ; ;; SELECT 2; " "SELECT 2" Hin)
    as (Hne & Hsemi & _).
  split; [exact Hne | exact Hsemi].
Defined.

Lemma statements_of_one_statement_witness :
  statements_of "  SELECT 1  " = [strip "  SELECT 1  "].
Proof.
  pose proof (statements_of_one_statement "  SELECT 1  ") as (_ & Hone).
  apply Hone; [reflexivity |]. vm_compute. discriminate.
Defined.

Lemma sf_query_from_buttons_witness :
  sf_query_of true false " SELECT 1; " = Some (strip " SELECT 1; ").
Proof.
  pose proof (sf_query_from_buttons true false " SELECT 1; ")
    as (_ & _ & Hrun & _).
  apply Hrun; [reflexivity |]. vm_compute. discriminate.
Defined.

Lemma remote_tab_runs_one_wrapped_query_witness :
  tab_query_run (connected_session (fresh [])) 0 (fresh []) false false
    "SELECT 1" "sf_explorer_secret"
  = (connected_session (fresh []), 0, fresh []).
Proof.
  pose proof (@remote_tab_runs_one_wrapped_query Script script_engine nat nat
                tick_clock (connected_session (fresh [])) 0 (fresh [])
                false false "SELECT 1" "sf_explorer_secret")
    as (_ & Hnone).
  exact (Hnone eq_refl).
Defined.


(** A statement the engine rejects, then one it answers: both are sent. *)
Lemma tab_local_issues_all_witness :
  issued
    (run_conn
       (tab_local (Exp := header_export) (connected_session (fresh []))
          0 (fresh [Raises "Parser Error"; Returns (cursor_of probe_frame)])
          ([] : Registry) ["SELEC 1"; "SELECT 1"]))
  = ["SELEC 1"; "SELECT 1"].
Proof.
  pose proof (@tab_local_issues_all Script script_engine nat nat tick_clock
                Registry key_registry header_export
                ["SELEC 1"; "SELECT 1"] (connected_session (fresh [])) 0
                (fresh [Raises "Parser Error"; Returns (cursor_of probe_frame)])
                [])
    as (_ & Hall & _).
  exact (Hall eq_refl).
Defined.

(** The same two statements, typed into the editor. *)
Lemma local_tab_runs_its_statements_witness :
  issued
    (run_conn
       (tab_local_run (Exp := header_export) (connected_session (fresh []))
          0 (fresh [Raises "Parser Error"; Returns (cursor_of probe_frame)])
          ([] : Registry) true " SELEC 1; SELECT 1; "))
  = ["SELEC 1"; "SELECT 1"].
Proof.
  pose proof (@local_tab_runs_its_statements Script script_engine nat nat
                tick_clock Registry key_registry header_export
                (connected_session (fresh [])) 0
                (fresh [Raises "Parser Error"; Returns (cursor_of probe_frame)])
                [] true " SELEC 1; SELECT 1; ")
    as (_ & Hall & _).
  exact (Hall eq_refl).
Defined.
